(** * mikrotik-monit: pool, response cache and rate engine

    A shallow embedding of the telemetry core of the MikroTik monitor
    backend: [connectionPool.js] (the [ConnectionPool] class), the
    optimised server that uses it with its routes, and the legacy
    [backend/server.js], which connects anew for every request.

    Conventions of the embedding.
    - [Date.now()] is an explicit argument in milliseconds ([Z]); all
      readings inside one synchronous stretch of code are one reading.
    - The protocol adapter ([node-routeros]) is an environment: a record
      says whether each call throws and what it returns, and the calls
      made are appended to a log.
    - [await] points are not interleaved: a function runs to its end, and
      the branches that [Promise.all] starts together run one after the
      other.
    - JavaScript numbers are exact rationals plus [Infinity], [-Infinity]
      and [NaN]; the binary rounding of doubles is not modelled.
    - [Map] objects and the [cacheTimeouts] object literal are finite
      maps ([gmap]); the names every object inherits from
      [Object.prototype] are not looked up.
    - Router ids are integers, as the routes that compare them with
      [parseInt(req.params.id)] require. *)

From Stdlib Require Import ZArith QArith Qround Lia Ascii String.
From stdpp Require Import base decidable option list strings pretty gmap.

Set Warnings "-register-all".
Local Open Scope Z_scope.

(** ** JavaScript values and arithmetic *)

Module Js.

(** A JavaScript number: a finite value or one of the three special
    doubles. *)
Inductive number :=
| Finite (q : Q)
| PosInf
| NegInf
| NaN.

Definition of_Z (z : Z) : number := Finite (inject_Z z).

(** [x / y] for finite operands; a zero divisor gives an infinity or
    [NaN]. *)
Definition div (x y : Q) : number :=
  if Qeq_bool y 0 then
    if Qeq_bool x 0 then NaN
    else if Qle_bool 0 x then PosInf else NegInf
  else Finite (x / y).

(** [Math.round]: nearest integer, halves towards plus infinity. *)
Definition Math_round (a : number) : number :=
  match a with
  | Finite x => Finite (inject_Z (Qfloor (x + (1 # 2))))
  | other => other
  end.

(** [Math.max(a, b)]: [NaN] if either argument is. *)
Definition Math_max (a b : number) : number :=
  match a, b with
  | NaN, _ | _, NaN => NaN
  | PosInf, _ | _, PosInf => PosInf
  | NegInf, c | c, NegInf => c
  | Finite x, Finite y => if Qle_bool x y then Finite y else Finite x
  end.

(** Truthiness of a number: [0] and [NaN] are falsy. *)
Definition truthy_number (a : number) : bool :=
  match a with
  | Finite x => negb (Qeq_bool x 0)
  | PosInf | NegInf => true
  | NaN => false
  end.

(** The number is a finite integer. *)
Definition is_integer (a : number) : Prop :=
  ∃ z : Z, a = Finite (inject_Z z).

(** A JavaScript value.  [FormatBps x] and [FormatBytes x] stand for the
    strings [formatBitsPerSecond(x)] and [formatBytes(x)] of a non-zero
    [x]: their digits come out of [Math.log], [Math.pow] and [toFixed] on
    doubles and are never inspected by the server, which only passes them
    on. *)
Inductive value :=
| Undefined
| Null
| Bool (b : bool)
| Num (n : number)
| Str (s : string)
| FormatBps (x : Q)
| FormatBytes (x : Q)
| Obj (props : list (string * value))
| Arr (items : list value).

Definition truthy (v : value) : bool :=
  match v with
  | Undefined | Null => false
  | Bool b => b
  | Num n => truthy_number n
  | Str s => negb (String.eqb s "")
  | FormatBps _ | FormatBytes _ | Obj _ | Arr _ => true
  end.

(** [a || b]. *)
Definition or (a b : value) : value := if truthy a then a else b.

(** [o[k]] on an object built by a literal: the first binding of [k]. *)
Fixpoint assoc (k : string) (props : list (string * value)) : value :=
  match props with
  | [] => Undefined
  | (k', v) :: rest => if String.eqb k k' then v else assoc k rest
  end.

Definition get (v : value) (k : string) : value :=
  match v with
  | Obj props => assoc k props
  | _ => Undefined
  end.

(** [{...a, ...b}]: the bindings of [b] override those of [a] in place and
    new keys are appended. *)
Fixpoint set_prop (k : string) (v : value) (props : list (string * value))
  : list (string * value) :=
  match props with
  | [] => [(k, v)]
  | (k', v') :: rest =>
      if String.eqb k k' then (k', v) :: rest else (k', v') :: set_prop k v rest
  end.

Definition spread (a b : list (string * value)) : list (string * value) :=
  fold_left (λ acc kv, set_prop kv.1 kv.2 acc) b a.

(** A template literal [`${n}`] of an integer. *)
Definition template (n : Z) : string := pretty n.

End Js.

(** ** connectionPool.js *)

Module ConnectionPool.

(** One entry of [routers.json]. *)
Record RouterConfig := {
  id : Z;
  name : string;
  ip : string;
  username : string;
  password : string;
  port : option Z
}.

(** A [RouterOSAPI] object, known by its identity. *)
Definition Conn := nat.

(** What the protocol adapter is asked to do. *)
Inductive event :=
| Connect (c : Conn) (host : string)
| Close (c : Conn)
| Write (c : Conn) (path : string) (params : list string).

Record PoolEntry := {
  connection : Conn;
  lastUsed : Z;
  useCount : Z;
  config : RouterConfig
}.

Record CacheEntry := {
  data : Js.value;
  timestamp : Z
}.

(** The fields of the [ConnectionPool] object. *)
Record t := {
  pools : gmap string PoolEntry;
  cacheData : gmap string CacheEntry;
  cacheTimeouts : gmap string Z
}.

(** The process as the pool sees it: the pool object, the calls made to
    the adapter so far (oldest first) and the next unused connection
    identity. *)
Record World := {
  this : t;
  log : list event;
  fresh : Conn
}.

(** The [constructor]. *)
Definition new : t := {|
  pools := ∅;
  cacheData := ∅;
  cacheTimeouts :=
    <["overview" := 3000]> (<["bandwidth" := 2000]> (<["queues" := 10000]>
    (<["interfaces" := 5000]> (<["resources" := 3000]> ∅))))
|}.

Definition getCacheKey (routerId : Z) (endpoint : string) : string :=
  Js.template routerId +:+ "_" +:+ endpoint.

(** [this.cacheTimeouts[endpoint] || 5000]. *)
Definition timeoutOf (p : t) (endpoint : string) : Z :=
  match cacheTimeouts p !! endpoint with
  | Some ms => if ms =? 0 then 5000 else ms
  | None => 5000
  end.

Definition getFromCache (now : Z) (p : t) (routerId : Z) (endpoint : string)
  : Js.value :=
  let key := getCacheKey routerId endpoint in
  let timeout := timeoutOf p endpoint in
  match cacheData p !! key with
  | Some cached =>
      if now - timestamp cached <? timeout then data cached else Js.Null
  | None => Js.Null
  end.

Definition setCache (now : Z) (p : t) (routerId : Z) (endpoint : string)
  (d : Js.value) : t :=
  let key := getCacheKey routerId endpoint in
  {| pools := pools p;
     cacheData := <[key := {| data := d; timestamp := now |}]> (cacheData p);
     cacheTimeouts := cacheTimeouts p |}.

Definition poolKeyOf (cfg : RouterConfig) : string :=
  Js.template (id cfg) +:+ "_" +:+ ip cfg.

Definition with_pools (w : World) (ps : gmap string PoolEntry) : World :=
  {| this := {| pools := ps;
                cacheData := cacheData (this w);
                cacheTimeouts := cacheTimeouts (this w) |};
     log := log w;
     fresh := fresh w |}.

Definition emit (w : World) (e : event) : World :=
  {| this := this w; log := log w ++ [e]; fresh := fresh w |}.

(** How the adapter answers during one [getConnection]: whether [close]
    of a stale session throws, whether [connect] throws (and with which
    message), and the clock once [connect] has returned. *)
Record ConnectEnv := {
  close_throws : bool;
  connect_error : option string;
  now_connected : Z
}.

(** Lines 63-86: a new [RouterOS] object, [connect], and the pool entry on
    success. *)
Definition connectFresh (env : ConnectEnv) (cfg : RouterConfig) (w : World)
  : option Conn * World :=
  let conn := fresh w in
  let w1 := {| this := this w;
               log := log w ++ [Connect conn (ip cfg)];
               fresh := S conn |} in
  match connect_error env with
  | None =>
      (Some conn,
       with_pools w1
         (<[poolKeyOf cfg := {| connection := conn;
                                lastUsed := now_connected env;
                                useCount := 1;
                                config := cfg |}]> (pools (this w1))))
  | Some _ => (None, w1)
  end.

(** [getConnection]; [None] is the [null] of a failed connect. *)
Definition getConnection (now : Z) (env : ConnectEnv) (cfg : RouterConfig)
  (w : World) : option Conn * World :=
  let poolKey := poolKeyOf cfg in
  match pools (this w) !! poolKey with
  | Some poolEntry =>
      if now - lastUsed poolEntry <? 120000 then
        (Some (connection poolEntry),
         with_pools w
           (<[poolKey := {| connection := connection poolEntry;
                            lastUsed := now;
                            useCount := useCount poolEntry + 1;
                            config := config poolEntry |}]> (pools (this w))))
      else
        (* try { await close() } catch (e) {}: the outcome of [close] is
           not looked at *)
        let w1 := emit w (Close (connection poolEntry)) in
        let w2 := with_pools w1 (delete poolKey (pools (this w1))) in
        connectFresh env cfg w2
  | None => connectFresh env cfg w
  end.

Definition releaseConnection (now : Z) (cfg : RouterConfig) (w : World)
  : World :=
  let poolKey := poolKeyOf cfg in
  match pools (this w) !! poolKey with
  | Some poolEntry =>
      with_pools w
        (<[poolKey := {| connection := connection poolEntry;
                         lastUsed := now;
                         useCount := useCount poolEntry;
                         config := config poolEntry |}]> (pools (this w)))
  | None => w
  end.

Definition closeConnection (cfg : RouterConfig) (w : World) : World :=
  let poolKey := poolKeyOf cfg in
  match pools (this w) !! poolKey with
  | Some poolEntry =>
      let w1 := emit w (Close (connection poolEntry)) in
      with_pools w1 (delete poolKey (pools (this w1)))
  | None => w
  end.

Definition pool_expired (now : Z) (kv : string * PoolEntry) : Prop :=
  now - lastUsed kv.2 > 300000.

Definition cache_expired (now : Z) (kv : string * CacheEntry) : Prop :=
  now - timestamp kv.2 > 30000.

#[global] Instance pool_expired_dec now kv : Decision (pool_expired now kv).
Proof. unfold pool_expired. apply Z_gt_dec. Defined.

#[global] Instance cache_expired_dec now kv : Decision (cache_expired now kv).
Proof. unfold cache_expired. apply Z_gt_dec. Defined.

(** [cleanup], run by the timer every minute.  The sessions closed by one
    pass are logged in the order of [map_to_list], not in the insertion
    order a [Map] iterates in. *)
Definition cleanup (now : Z) (w : World) : World :=
  let p := this w in
  let closed :=
    (λ kv : string * PoolEntry, Close (connection kv.2))
      <$> map_to_list (filter (pool_expired now) (pools p)) in
  {| this := {| pools := filter (λ kv, ¬ pool_expired now kv) (pools p);
                cacheData := filter (λ kv, ¬ cache_expired now kv) (cacheData p);
                cacheTimeouts := cacheTimeouts p |};
     log := log w ++ closed;
     fresh := fresh w |}.

(** [closeAll]: every session is closed, in the order of [map_to_list],
    and the pool is emptied. *)
Definition closeAll (w : World) : World :=
  let closed :=
    (λ kv : string * PoolEntry, Close (connection kv.2))
      <$> map_to_list (pools (this w)) in
  {| this := {| pools := ∅;
                cacheData := cacheData (this w);
                cacheTimeouts := cacheTimeouts (this w) |};
     log := log w ++ closed;
     fresh := fresh w |}.

(** [getStats]: [activeConnections] and [cachedEntries]. *)
Definition getStats (p : t) : nat * nat :=
  (size (pools p), size (cacheData p)).

End ConnectionPool.

(** ** String helpers of the server *)

Module Text.

Definition is_digit (c : ascii) : bool :=
  let n := N_of_ascii c in ((48 <=? n) && (n <=? 57))%N.

Definition digit_of (c : ascii) : Z := Z.of_N (N_of_ascii c) - 48.

(** White space accepted in front of a number (the ASCII part of it). *)
Definition is_space (c : ascii) : bool :=
  let n := N_of_ascii c in
  ((n =? 32) || ((9 <=? n) && (n <=? 13)))%N.

Fixpoint skip_spaces (s : string) : string :=
  match s with
  | String c rest => if is_space c then skip_spaces rest else s
  | EmptyString => s
  end.

(** The longest prefix of decimal digits, and what follows it. *)
Fixpoint digits_prefix (s : string) : list Z * string :=
  match s with
  | String c rest =>
      if is_digit c then
        let '(ds, tail) := digits_prefix rest in (digit_of c :: ds, tail)
      else ([], s)
  | EmptyString => ([], s)
  end.

Definition decimal (ds : list Z) : Z :=
  fold_left (λ acc d, acc * 10 + d) ds 0.

(** The value of a hexadecimal digit. *)
Definition hex_of (c : ascii) : option Z :=
  let n := N_of_ascii c in
  if ((48 <=? n) && (n <=? 57))%N then Some (Z.of_N n - 48)
  else if ((97 <=? n) && (n <=? 102))%N then Some (Z.of_N n - 87)
  else if ((65 <=? n) && (n <=? 70))%N then Some (Z.of_N n - 55)
  else None.

Fixpoint hex_prefix (s : string) : list Z :=
  match s with
  | String c rest =>
      match hex_of c with
      | Some d => d :: hex_prefix rest
      | None => []
      end
  | EmptyString => []
  end.

Definition hexadecimal (ds : list Z) : Z :=
  fold_left (λ acc d, acc * 16 + d) ds 0.

(** The digits of [parseInt] after the sign: a [0x] prefix selects base
    sixteen; [None] is [NaN]. *)
Definition parse_magnitude (s : string) : option Z :=
  match s with
  | String "0" (String "x" rest) | String "0" (String "X" rest) =>
      match hex_prefix rest with
      | [] => None
      | ds => Some (hexadecimal ds)
      end
  | _ =>
      match digits_prefix s with
      | ([], _) => None
      | (ds, _) => Some (decimal ds)
      end
  end.

(** [parseInt(x)] of a string or [undefined]; [None] is [NaN]. *)
Definition parseInt (x : option string) : option Z :=
  match x with
  | None => None
  | Some s =>
      match skip_spaces s with
      | String "-" rest => Z.opp <$> parse_magnitude rest
      | String "+" rest => parse_magnitude rest
      | rest => parse_magnitude rest
      end
  end.

(** [parseInt(x) || d]. *)
Definition parseInt_or (x : option string) (d : Z) : Z :=
  match parseInt x with
  | Some z => if z =? 0 then d else z
  | None => d
  end.

(** [s.split('/')]. *)
Fixpoint split_slash_go (s : string) (cur : string) : list string :=
  match s with
  | EmptyString => [cur]
  | String c rest =>
      if Ascii.eqb c "/" then cur :: split_slash_go rest ""
      else split_slash_go rest (cur +:+ String c "")
  end.

Definition split_slash (s : string) : list string := split_slash_go s "".

(** Drop the characters in front of the first decimal digit. *)
Fixpoint seek_digit (s : string) : string :=
  match s with
  | String c rest => if is_digit c then s else seek_digit rest
  | EmptyString => s
  end.

(** [x || d] for a string that may be [undefined]. *)
Definition string_or (x : option string) (d : string) : string :=
  match x with
  | Some s => if String.eqb s "" then d else s
  | None => d
  end.

End Text.

(** ** More arithmetic and string functions of JavaScript *)

Module Number.

(** [a + b]. *)
Definition add (a b : Js.number) : Js.number :=
  match a, b with
  | Js.NaN, _ | _, Js.NaN => Js.NaN
  | Js.PosInf, Js.NegInf | Js.NegInf, Js.PosInf => Js.NaN
  | Js.PosInf, _ | _, Js.PosInf => Js.PosInf
  | Js.NegInf, _ | _, Js.NegInf => Js.NegInf
  | Js.Finite x, Js.Finite y => Js.Finite (x + y)
  end.

(** [- a]. *)
Definition neg (a : Js.number) : Js.number :=
  match a with
  | Js.Finite x => Js.Finite (- x)
  | Js.PosInf => Js.NegInf
  | Js.NegInf => Js.PosInf
  | Js.NaN => Js.NaN
  end.

(** [a - b]. *)
Definition sub (a b : Js.number) : Js.number := add a (neg b).

(** [a > 0]. *)
Definition positive (a : Js.number) : bool :=
  match a with
  | Js.Finite x => negb (Qle_bool x 0)
  | Js.PosInf => true
  | Js.NegInf | Js.NaN => false
  end.

(** [a > b]. *)
Definition gt (a b : Js.number) : bool := positive (sub a b).

(** [s.startsWith(p)]. *)
Definition startsWith (s p : string) : bool := String.prefix p s.

(** [s.includes(sub)]. *)
Fixpoint includes (s sub : string) : bool :=
  String.prefix sub s
  || match s with
     | String _ rest => includes rest sub
     | EmptyString => false
     end.

End Number.

(** ** What the server gets from the adapter *)

(** A reply row of [conn.write]: an object whose fields are strings. *)
Definition Row := gmap string string.

(** [conn.write(...)] returns an array of rows or throws. *)
Inductive WriteResult :=
| Rows (rows : list Row)
| Throws (message : string).

(** A field of a row that may be missing, as a value. *)
Definition field_value (x : option string) : Js.value :=
  match x with
  | Some s => Js.Str s
  | None => Js.Undefined
  end.

(** [parseInt] of a row object reads the string ["[object Object]"]. *)
Definition parseIntRow (r : Row) : option Z := None.

Definition num (z : Z) : Js.value := Js.Num (Js.of_Z z).

(** [formatBitsPerSecond] and [formatBytes]: the zero case is a literal,
    the other strings are left uninterpreted. *)
Definition formatBitsPerSecond (bps : Q) : Js.value :=
  if Qeq_bool bps 0 then Js.Str "0 bps" else Js.FormatBps (Qred bps).

Definition formatBytes (bytes : Q) : Js.value :=
  if Qeq_bool bytes 0 then Js.Str "0 B" else Js.FormatBytes (Qred bytes).

(** The properties of an object that a spread copies; a value that is not
    an object built by the server contributes none. *)
Definition props_of (v : Js.value) : list (string * Js.value) :=
  match v with
  | Js.Obj props => props
  | _ => []
  end.

(** ** The loop over the queues *)

(** The variables the loop of [getQueueStatsFull] and [getQueueStats]
    updates. *)
Record QueueTotals := {
  activeQueues : Z;
  totalBandwidthUp : Q;
  totalBandwidthDown : Q;
  queueList : list Js.value
}.

Definition no_totals : QueueTotals :=
  {| activeQueues := 0; totalBandwidthUp := 0; totalBandwidthDown := 0;
     queueList := [] |}.

(** One iteration of the loop; the two servers differ in
    [parseBandwidth] only. *)
Definition queue_step (parseBandwidth : option string → Q)
  (acc : QueueTotals) (queue : Row) : QueueTotals :=
  let isActive := negb (bool_decide (queue !! "disabled" = Some "true")) in
  let maxLimit := Text.string_or (queue !! "max-limit") "0/0" in
  let limits := Text.split_slash maxLimit in
  let upBps := parseBandwidth (limits !! 0%nat) in
  let downBps := parseBandwidth (limits !! 1%nat) in
  let bytes := Text.split_slash (Text.string_or (queue !! "bytes") "0/0") in
  let bytesUp := Text.parseInt_or (bytes !! 0%nat) 0 in
  let bytesDown := Text.parseInt_or (bytes !! 1%nat) 0 in
  {| activeQueues := if isActive then activeQueues acc + 1 else activeQueues acc;
     totalBandwidthUp := totalBandwidthUp acc + upBps;
     totalBandwidthDown := totalBandwidthDown acc + downBps;
     queueList := queueList acc ++ [Js.Obj [
       ("name", field_value (queue !! "name"));
       ("target", field_value (queue !! "target"));
       ("maxLimitUp", formatBitsPerSecond upBps);
       ("maxLimitDown", formatBitsPerSecond downBps);
       ("bytesUp", num bytesUp);
       ("bytesDown", num bytesDown);
       ("bytesUpFormatted", formatBytes (inject_Z bytesUp));
       ("bytesDownFormatted", formatBytes (inject_Z bytesDown));
       ("disabled", Js.Bool (bool_decide (queue !! "disabled" = Some "true")));
       ("parent", Js.Str (Text.string_or (queue !! "parent") "none"))
     ]] |}.

Definition queue_result (totalQueues : Z) (acc : QueueTotals)
  (shown : list Js.value) : Js.value :=
  Js.Obj [("total", num totalQueues);
          ("active", num (activeQueues acc));
          ("disabled", num (totalQueues - activeQueues acc));
          ("totalBandwidthUp", formatBitsPerSecond (totalBandwidthUp acc));
          ("totalBandwidthDown", formatBitsPerSecond (totalBandwidthDown acc));
          ("queues", Js.Arr shown)].

(** What the adapter does during one queue listing. *)
Record QueueEnv := {
  q_start : Z;
  queue_print : WriteResult;
  q_answered : Z
}.

(** ** The rate engine *)

Record Sample := {
  lastRx : Z;
  lastTx : Z;
  lastTime : Z
}.

Record Rates := {
  rxRate : Js.number;
  txRate : Js.number
}.

(** [currentRx >= last ? currentRx - last : currentRx]. *)
Definition counterDiff (current last : Z) : Z :=
  if last <=? current then current - last else current.

(** [(currentTime - history.lastTime) / 1000]. *)
Definition timeDiffOf (currentTime : Z) (history : Sample) : Q :=
  inject_Z (currentTime - lastTime history) / inject_Z 1000.

Definition historyKey (routerId : Z) (interfaceName : string) : string :=
  Js.template routerId +:+ "_" +:+ interfaceName.

(** The optimised server.  The counters are integers: the only caller
    passes [parseInt(...) || 0]. *)
Module Server.

Definition calculateRates (currentTime : Z) (routerId : Z)
  (interfaceName : string) (currentRx currentTx : Z)
  (trafficHistory : gmap string Sample) : Rates * gmap string Sample :=
  let key := historyKey routerId interfaceName in
  let seed := {| lastRx := currentRx; lastTx := currentTx;
                 lastTime := currentTime |} in
  match trafficHistory !! key with
  | None =>
      ({| rxRate := Js.of_Z 0; txRate := Js.of_Z 0 |},
       <[key := seed]> trafficHistory)
  | Some history =>
      let timeDiff := timeDiffOf currentTime history in
      if Qle_bool (3 # 2) timeDiff then
        let rxDiff := counterDiff currentRx (lastRx history) in
        let txDiff := counterDiff currentTx (lastTx history) in
        let rxRate :=
          Js.Math_max (Js.of_Z 0)
            (Js.Math_round (Js.div (inject_Z (rxDiff * 8)) timeDiff)) in
        let txRate :=
          Js.Math_max (Js.of_Z 0)
            (Js.Math_round (Js.div (inject_Z (txDiff * 8)) timeDiff)) in
        ({| rxRate := rxRate; txRate := txRate |},
         <[key := seed]> trafficHistory)
      else
        let cachedRxDiff := counterDiff currentRx (lastRx history) in
        let cachedTxDiff := counterDiff currentTx (lastTx history) in
        (* timeDiff || 1 *)
        let cachedTimeDiff := if Qeq_bool timeDiff 0 then 1%Q else timeDiff in
        ({| rxRate :=
              Js.Math_round (Js.div (inject_Z (cachedRxDiff * 8)) cachedTimeDiff);
            txRate :=
              Js.Math_round (Js.div (inject_Z (cachedTxDiff * 8)) cachedTimeDiff) |},
         trafficHistory)
  end.

Import ConnectionPool.

(** [multipliers[unit] || 1] after [toUpperCase]. *)
Definition multiplier (unit : option ascii) : Z :=
  match unit with
  | Some "K"%char | Some "k"%char => 1000
  | Some "M"%char | Some "m"%char => 1000000
  | Some "G"%char | Some "g"%char => 1000000000
  | _ => 1
  end.

(** The optional unit letter matched by [[KMG]?] with the [i] flag. *)
Definition unit_of (s : string) : option ascii :=
  match s with
  | String c _ =>
      if existsb (Ascii.eqb c) ["K"; "M"; "G"; "k"; "m"; "g"]%char
      then Some c else None
  | EmptyString => None
  end.

(** [parseBandwidth]: the first match of the pattern "digits, an optional
    dot, more digits, an optional unit letter"; the number is read by
    [parseFloat] and multiplied by the unit. *)
Definition parseBandwidth (bandwidth : option string) : Q :=
  match bandwidth with
  | None => 0
  | Some s =>
      if String.eqb s "" then 0
      else
        match Text.digits_prefix (Text.seek_digit s) with
        | ([], _) => 0
        | (whole, rest) =>
            let '(frac, rest') :=
              match rest with
              | String "." after => Text.digits_prefix after
              | _ => ([], rest)
              end in
            let value :=
              inject_Z (Text.decimal whole)
              + inject_Z (Text.decimal frac) / inject_Z (10 ^ Z.of_nat (length frac)) in
            value * inject_Z (multiplier (unit_of rest'))
        end
  end%Q.

Definition with_this (w : World) (p : ConnectionPool.t) : World :=
  {| this := p; log := log w; fresh := fresh w |}.

(** What one device does while its branch of [/api/routers] runs: the
    clock at the points where the branch reads it, and the adapter's
    answers. *)
Record DeviceEnv := {
  t_start : Z;            (* the branch starts: overview cache, acquire *)
  conn_env : ConnectEnv;
  t_queries : Z;          (* the three sub-queries start *)
  resource_print : WriteResult;
  t_resources : Z;        (* /system/resource/print has answered *)
  interface_print : WriteResult;
  queue_count : WriteResult;
  queue_active_count : WriteResult;
  t_queues : Z;           (* both queue counts have answered *)
  t_merge : Z             (* Promise.all of the sub-queries has resolved *)
}.

Definition getRouterResources (env : DeviceEnv) (conn : Conn)
  (cfg : RouterConfig) (w : World) : Js.value * World :=
  let cached := getFromCache (t_queries env) (this w) (id cfg) "resources" in
  if Js.truthy cached then (cached, w)
  else
    let w1 := emit w (Write conn "/system/resource/print" []) in
    match resource_print env with
    | Throws _ => (Js.Null, w1)
    | Rows [] => (Js.Null, w1)        (* throw new Error('No resource data returned') *)
    | Rows (r0 :: _) =>
        let totalMem := Text.parseInt_or (r0 !! "total-memory") 0 in
        let freeMem := Text.parseInt_or (r0 !! "free-memory") 0 in
        let usedMem := totalMem - freeMem in
        let result := Js.Obj [
          ("cpu", num (Text.parseInt_or (r0 !! "cpu-load") 0));
          ("cpuLoad", Js.Str (Text.string_or (r0 !! "cpu-load") "0"));
          ("memoryTotal", num totalMem);
          ("memoryFree", num freeMem);
          ("memoryUsed", num usedMem);
          ("memoryUsage",
            if 0 <? totalMem
            then Js.Num (Js.Math_round
                   (Js.Finite (inject_Z usedMem / inject_Z totalMem * 100)))
            else num 0);
          ("uptime", Js.Str (Text.string_or (r0 !! "uptime") "0s"));
          ("version", Js.Str (Text.string_or (r0 !! "version") "unknown"));
          ("board", Js.Str (Text.string_or (r0 !! "board-name") "unknown"))
        ] in
        (result,
         with_this w1 (setCache (t_resources env) (this w1) (id cfg) "resources" result))
    end.

Definition users_object (pppoe : Z) : Js.value :=
  Js.Obj [("dhcp", num 0); ("hotspot", num 0); ("pppoe", num pppoe);
          ("total", num pppoe)].

Definition getActiveUsers (env : DeviceEnv) (conn : Conn)
  (cfg : RouterConfig) (w : World) : Js.value * World :=
  let w1 := emit w (Write conn "/interface/print"
                      ["?type=pppoe-in"; "?running=true"]) in
  match interface_print env with
  | Rows pppoeInterfaces => (users_object (Z.of_nat (length pppoeInterfaces)), w1)
  | Throws _ => (users_object 0, w1)
  end.

Definition queue_counts (total active : Z) : Js.value :=
  Js.Obj [("total", num total); ("active", num active);
          ("disabled", num (total - active))].

(** [parseInt(rows[0]) || rows.length]. *)
Definition count_of (rows : list Row) (r0 : Row) : Z :=
  match parseIntRow r0 with
  | Some z => if z =? 0 then Z.of_nat (length rows) else z
  | None => Z.of_nat (length rows)
  end.

Definition getQueueStatsLight (env : DeviceEnv) (conn : Conn)
  (cfg : RouterConfig) (w : World) : Js.value * World :=
  let cached := getFromCache (t_queries env) (this w) (id cfg) "queues_light" in
  if Js.truthy cached then (cached, w)
  else
    let w1 := emit w (Write conn "/queue/simple/print" ["=count-only="]) in
    match queue_count env with
    | Throws _ => (queue_counts 0 0, w1)
    | Rows queues =>
        let total := match queues with r0 :: _ => count_of queues r0 | [] => 0 end in
        let w2 := emit w1 (Write conn "/queue/simple/print"
                             ["?disabled=false"; "=count-only="]) in
        match queue_active_count env with
        | Throws _ => (queue_counts 0 0, w2)
        | Rows activeQueues =>
            let active :=
              match activeQueues with
              | r0 :: _ => count_of activeQueues r0
              | [] => total
              end in
            let result := queue_counts total active in
            (result,
             with_this w2
               (setCache (t_queues env) (this w2) (id cfg) "queues_light" result))
        end
    end.

(** The snapshot of a device that could not be reached (lines 487-492);
    the catch clause of lines 520-525 builds the same object with another
    status and message. *)
Definition failed_snapshot (cfg : RouterConfig) (status message : string)
  : Js.value :=
  Js.Obj [("id", num (id cfg)); ("name", Js.Str (name cfg)); ("ip", Js.Str (ip cfg));
          ("status", Js.Str status); ("error", Js.Str message);
          ("cpu", num 0); ("memoryUsage", num 0); ("uptime", Js.Str "0s");
          ("activeUsers", num 0); ("totalQueues", num 0); ("activeQueues", num 0);
          ("currentBandwidth", Js.Str "0 bps")].

(** The merged snapshot of lines 505-513. *)
Definition merged_snapshot (cfg : RouterConfig) (resources users queues : Js.value)
  : Js.value :=
  Js.Obj (Js.spread
    [("id", num (id cfg)); ("name", Js.Str (name cfg)); ("ip", Js.Str (ip cfg));
     ("status", Js.Str (if Js.truthy resources then "online" else "error"));
     ("activeUsers", Js.get users "total");
     ("totalQueues", Js.get queues "total");
     ("activeQueues", Js.get queues "active");
     ("currentBandwidth", Js.Str "0 bps")]
    (props_of (Js.or resources
       (Js.Obj [("cpu", num 0); ("memoryUsage", num 0); ("uptime", Js.Str "0s")])))).

(** The callback that [/api/routers] maps over [routerConfigs].  Its
    [catch] clause (lines 517-526) has nothing to catch: each sub-query
    handles its own failures and [releaseConnection] does not throw. The
    three sub-queries started together by [Promise.all] touch different
    cache keys and are run one after the other here. *)
Definition overviewOf (env : DeviceEnv) (cfg : RouterConfig) (w : World)
  : Js.value * World :=
  let cached := getFromCache (t_start env) (this w) (id cfg) "overview" in
  if Js.truthy cached then (cached, w)
  else
    match getConnection (t_start env) (conn_env env) cfg w with
    | (None, w1) => (failed_snapshot cfg "offline" "Connection timeout", w1)
    | (Some conn, w1) =>
        let '(resources, w2) := getRouterResources env conn cfg w1 in
        let '(users, w3) := getActiveUsers env conn cfg w2 in
        let '(queues, w4) := getQueueStatsLight env conn cfg w3 in
        let w5 := releaseConnection (t_merge env) cfg w4 in
        let result := merged_snapshot cfg resources users queues in
        (result,
         with_this w5 (setCache (t_merge env) (this w5) (id cfg) "overview" result))
    end.

(** [Promise.all(routerConfigs.map(...))]: one result per configuration,
    in the order of the list.  The branches of different devices are run
    one after the other; [env i] is what the [i]-th device does. *)
Fixpoint routersFrom (env : nat → DeviceEnv) (i : nat)
  (routerConfigs : list RouterConfig) (w : World) : list Js.value * World :=
  match routerConfigs with
  | [] => ([], w)
  | cfg :: rest =>
      let '(r, w1) := overviewOf (env i) cfg w in
      let '(rs, w2) := routersFrom env (S i) rest w1 in
      (r :: rs, w2)
  end.

(** [GET /api/routers]. *)
Definition getRouters (env : nat → DeviceEnv) (routerConfigs : list RouterConfig)
  (w : World) : list Js.value * World :=
  routersFrom env 0 routerConfigs w.

(** [getQueueStatsFull]: the counters are accumulated over
    [limitedQueues]. *)
Definition getQueueStatsFull (env : QueueEnv) (conn : Conn)
  (cfg : RouterConfig) (w : World) : Js.value * World :=
  let cached := getFromCache (q_start env) (this w) (id cfg) "queues" in
  if Js.truthy cached then (cached, w)
  else
    let w1 := emit w (Write conn "/queue/simple/print" []) in
    match queue_print env with
    | Throws _ => (queue_result 0 no_totals [], w1)
    | Rows queues =>
        let totalQueues := Z.of_nat (length queues) in
        let limitedQueues := take 20 queues in
        let acc := fold_left (queue_step parseBandwidth) limitedQueues no_totals in
        let result := queue_result totalQueues acc (queueList acc) in
        (result,
         with_this w1 (setCache (q_answered env) (this w1) (id cfg) "queues" result))
    end.

(** An entry of [bandwidthList]. *)
Record Interface := {
  if_name : string;
  if_type : option string;
  if_rxRate : Js.number;
  if_txRate : Js.number;
  if_rxBytes : Z;
  if_txBytes : Z;
  if_running : bool
}.

(** [formatBitsPerSecond] of a rate: for a number that is not finite the
    function returns the string ["NaN undefined"]. *)
Definition formatRate (rate : Js.number) : Js.value :=
  match rate with
  | Js.Finite bps => formatBitsPerSecond bps
  | _ => Js.Str "NaN undefined"
  end.

Definition interface_value (i : Interface) : Js.value :=
  Js.Obj [("name", Js.Str (if_name i));
          ("type", field_value (if_type i));
          ("rxRate", Js.Num (if_rxRate i));
          ("txRate", Js.Num (if_txRate i));
          ("rxRateFormatted", formatRate (if_rxRate i));
          ("txRateFormatted", formatRate (if_txRate i));
          ("rxBytes", num (if_rxBytes i));
          ("txBytes", num (if_txBytes i));
          ("running", Js.Bool (if_running i))].

(** The comparator of [bandwidthList.sort]:
    [(b.rxRate + b.txRate) - (a.rxRate + a.txRate)]. *)
Definition byTraffic (a b : Interface) : Js.number :=
  Number.sub (Number.add (if_rxRate b) (if_txRate b))
             (Number.add (if_rxRate a) (if_txRate a)).

(** [Array.prototype.sort] with a comparator, which is stable: an element
    moves behind a later one only when the comparator is positive.  (For a
    comparator that is not a consistent order the language leaves the
    result to the implementation.) *)
Fixpoint sort_insert (compare : Interface → Interface → Js.number)
  (x : Interface) (sorted : list Interface) : list Interface :=
  match sorted with
  | [] => [x]
  | y :: rest =>
      if Number.positive (compare x y) then y :: sort_insert compare x rest
      else x :: sorted
  end.

Definition sort (compare : Interface → Interface → Js.number)
  (l : list Interface) : list Interface :=
  foldr (sort_insert compare) [] l.

(** The test of lines 407-415 on the name and the type of an interface. *)
Definition isVirtual (name : string) : bool :=
  Number.includes name "ovpn" || Number.includes name "l2tp".

Definition isRelevant (name : string) (type : option string) : bool :=
  Number.startsWith name "ether"
  || Number.startsWith name "vlan"
  || Number.startsWith name "bridge"
  || Number.startsWith name "pppoe"
  || match type with
     | Some t => existsb (String.eqb t)
                   ["ether"; "vlan"; "bridge"; "ppp-out"; "pppoe-out"]
     | None => false
     end.

(** The variables of the loop of [getBandwidthRates], with the module's
    [trafficHistory]. *)
Record BandwidthLoop := {
  bandwidthList : list Interface;
  totalRxRate : Js.number;
  totalTxRate : Js.number;
  history : gmap string Sample
}.

(** The loop over the interfaces.  The flag says that the loop threw: a
    row without a [name] makes [iface.name.includes] a [TypeError]. *)
Fixpoint bandwidth_loop (now routerId : Z) (interfaces : list Row)
  (st : BandwidthLoop) : bool * BandwidthLoop :=
  match interfaces with
  | [] => (false, st)
  | iface :: rest =>
      match iface !! "name" with
      | None => (true, st)
      | Some name =>
          if isVirtual name then bandwidth_loop now routerId rest st
          else if negb (isRelevant name (iface !! "type")) then
            bandwidth_loop now routerId rest st
          else
            let currentRx := Text.parseInt_or (iface !! "rx-byte") 0 in
            let currentTx := Text.parseInt_or (iface !! "tx-byte") 0 in
            let '(rates, th) :=
              calculateRates now routerId name currentRx currentTx (history st) in
            let primary := String.eqb name "ether1" || String.eqb name "pppoe" in
            bandwidth_loop now routerId rest
              {| bandwidthList :=
                   bandwidthList st ++
                   [{| if_name := name; if_type := iface !! "type";
                       if_rxRate := rxRate rates; if_txRate := txRate rates;
                       if_rxBytes := currentRx; if_txBytes := currentTx;
                       if_running := true |}];
                 totalRxRate := if primary then rxRate rates else totalRxRate st;
                 totalTxRate := if primary then txRate rates else totalTxRate st;
                 history := th |}
      end
  end.

Definition bandwidth_result (rx tx : Js.number) (shown : list Interface)
  : Js.value :=
  Js.Obj [("totalRxRate", Js.Num rx); ("totalTxRate", Js.Num tx);
          ("totalRxRateFormatted", formatRate rx);
          ("totalTxRateFormatted", formatRate tx);
          ("interfaces", Js.Arr (interface_value <$> shown))].

(** What the adapter does during one bandwidth query. *)
Record BandwidthEnv := {
  b_start : Z;
  running_print : WriteResult;
  b_answered : Z
}.

(** [getBandwidthRates], with [trafficHistory] passed along. *)
Definition getBandwidthRates (env : BandwidthEnv) (conn : Conn)
  (cfg : RouterConfig) (w : World) (th : gmap string Sample)
  : Js.value * World * gmap string Sample :=
  let cached := getFromCache (b_start env) (this w) (id cfg) "bandwidth" in
  if Js.truthy cached then (cached, w, th)
  else
    let w1 := emit w (Write conn "/interface/print" ["?running=true"]) in
    match running_print env with
    | Throws _ => (bandwidth_result (Js.of_Z 0) (Js.of_Z 0) [], w1, th)
    | Rows interfaces =>
        match bandwidth_loop (b_answered env) (id cfg) interfaces
                {| bandwidthList := []; totalRxRate := Js.of_Z 0;
                   totalTxRate := Js.of_Z 0; history := th |} with
        | (true, st) =>
            (bandwidth_result (Js.of_Z 0) (Js.of_Z 0) [], w1, history st)
        | (false, st) =>
            let result :=
              bandwidth_result (totalRxRate st) (totalTxRate st)
                (take 20 (sort byTraffic (bandwidthList st))) in
            (result,
             with_this w1 (setCache (b_answered env) (this w1) (id cfg)
                             "bandwidth" result),
             history st)
        end
    end.

(** What the process holds: the pool with its log, and the module's
    [trafficHistory]. *)
Record Process := {
  world : World;
  trafficHistory : gmap string Sample
}.

(** An answer of a route: [res.status(code).json(body)]; [res.json] alone
    answers with 200. *)
Record Response := {
  statusCode : Z;
  body : Js.value
}.

Definition json (v : Js.value) : Response := {| statusCode := 200; body := v |}.

Definition not_found : Response :=
  {| statusCode := 404; body := Js.Obj [("error", Js.Str "Router not found")] |}.

(** [routerConfigs.find(r => r.id === routerId)] for
    [routerId = parseInt(req.params.id)]; [NaN] equals no id. *)
Definition findRouter (routerConfigs : list RouterConfig) (params_id : string)
  : option RouterConfig :=
  match Text.parseInt (Some params_id) with
  | Some routerId => List.find (λ r, id r =? routerId) routerConfigs
  | None => None
  end.

(** What the device does during [GET /api/routers/:id]. *)
Record DetailEnv := {
  d_device : DeviceEnv;
  d_queues : QueueEnv;
  d_bandwidth : BandwidthEnv
}.

(** [GET /api/routers/:id].  As in the overview, nothing inside the [try]
    throws, so that its [catch] clause and the 500 answer are never
    reached. *)
Definition getRouter (params_id : string) (env : DetailEnv)
  (routerConfigs : list RouterConfig) (p : Process) : Response * Process :=
  match findRouter routerConfigs params_id with
  | None => (not_found, p)
  | Some config =>
      let dev := d_device env in
      match getConnection (t_start dev) (conn_env dev) config (world p) with
      | (None, w1) =>
          (json (Js.Obj [("id", num (id config)); ("name", Js.Str (name config));
                         ("status", Js.Str "offline");
                         ("error", Js.Str "Connection failed")]),
           {| world := w1; trafficHistory := trafficHistory p |})
      | (Some conn, w1) =>
          let '(resources, w2) := getRouterResources dev conn config w1 in
          let '(users, w3) := getActiveUsers dev conn config w2 in
          let '(queues, w4) := getQueueStatsFull (d_queues env) conn config w3 in
          let '(bandwidth, w5, th) :=
            getBandwidthRates (d_bandwidth env) conn config w4 (trafficHistory p) in
          let w6 := releaseConnection (t_merge dev) config w5 in
          (json (Js.Obj (Js.spread
             [("id", num (id config)); ("name", Js.Str (name config));
              ("ip", Js.Str (ip config)); ("status", Js.Str "online");
              ("users", users); ("queues", queues); ("bandwidth", bandwidth)]
             (props_of resources))),
           {| world := w6; trafficHistory := th |})
      end
  end.

(** What the device does during a request for its bandwidth or for its
    queues only. *)
Record SingleEnv := {
  s_start : Z;
  s_conn : ConnectEnv;
  s_bandwidth : BandwidthEnv;
  s_queues : QueueEnv;
  s_release : Z
}.

Definition connection_failed : Response :=
  json (Js.Obj [("error", Js.Str "Connection failed")]).

(** [GET /api/routers/:id/bandwidth]. *)
Definition getRouterBandwidth (params_id : string) (env : SingleEnv)
  (routerConfigs : list RouterConfig) (p : Process) : Response * Process :=
  match findRouter routerConfigs params_id with
  | None => (not_found, p)
  | Some config =>
      match getConnection (s_start env) (s_conn env) config (world p) with
      | (None, w1) =>
          (connection_failed, {| world := w1; trafficHistory := trafficHistory p |})
      | (Some conn, w1) =>
          let '(bandwidth, w2, th) :=
            getBandwidthRates (s_bandwidth env) conn config w1 (trafficHistory p) in
          (json bandwidth,
           {| world := releaseConnection (s_release env) config w2;
              trafficHistory := th |})
      end
  end.


(** The callback of [GET /api/routers/bandwidth-summary]. *)
Definition summaryOf (env : SingleEnv) (config : RouterConfig) (p : Process)
  : Js.value * Process :=
  match getConnection (s_start env) (s_conn env) config (world p) with
  | (None, w1) =>
      (Js.Obj [("id", num (id config)); ("bandwidth", Js.Str "0 bps")],
       {| world := w1; trafficHistory := trafficHistory p |})
  | (Some conn, w1) =>
      let '(bandwidth, w2, th) :=
        getBandwidthRates (s_bandwidth env) conn config w1 (trafficHistory p) in
      (Js.Obj [("id", num (id config));
               ("bandwidth", Js.get bandwidth "totalRxRateFormatted")],
       {| world := releaseConnection (s_release env) config w2;
          trafficHistory := th |})
  end.

(** [GET /api/routers/bandwidth-summary]: the branches of [Promise.all],
    one after the other. *)
Fixpoint summaryFrom (env : nat → SingleEnv) (i : nat)
  (routerConfigs : list RouterConfig) (p : Process) : list Js.value * Process :=
  match routerConfigs with
  | [] => ([], p)
  | config :: rest =>
      let '(r, p1) := summaryOf (env i) config p in
      let '(rs, p2) := summaryFrom env (S i) rest p1 in
      (r :: rs, p2)
  end.

Definition getBandwidthSummary (env : nat → SingleEnv)
  (routerConfigs : list RouterConfig) (p : Process) : Response * Process :=
  let '(results, p') := summaryFrom env 0 routerConfigs p in
  (json (Js.Arr results), p').

End Server.

(** The legacy [backend/server.js]. *)
Module Legacy.

Definition calculateRates (currentTime : Z) (routerId : Z)
  (interfaceName : string) (currentRx currentTx : Z)
  (trafficHistory : gmap string Sample) : Rates * gmap string Sample :=
  let key := historyKey routerId interfaceName in
  let seed := {| lastRx := currentRx; lastTx := currentTx;
                 lastTime := currentTime |} in
  match trafficHistory !! key with
  | None =>
      ({| rxRate := Js.of_Z 0; txRate := Js.of_Z 0 |},
       <[key := seed]> trafficHistory)
  | Some history =>
      let timeDiff := timeDiffOf currentTime history in
      if Qle_bool 2 timeDiff then
        let rxDiff := counterDiff currentRx (lastRx history) in
        let txDiff := counterDiff currentTx (lastTx history) in
        let rxRate :=
          Js.Math_max (Js.of_Z 0)
            (Js.Math_round (Js.div (inject_Z (rxDiff * 8)) timeDiff)) in
        let txRate :=
          Js.Math_max (Js.of_Z 0)
            (Js.Math_round (Js.div (inject_Z (txDiff * 8)) timeDiff)) in
        ({| rxRate := rxRate; txRate := txRate |},
         <[key := seed]> trafficHistory)
      else
        ({| rxRate := Js.of_Z 0; txRate := Js.of_Z 0 |}, trafficHistory)
  end.

(** [parseBandwidth] of the legacy server: an integer and a unit. *)
Definition parseBandwidth (bandwidth : option string) : Q :=
  match bandwidth with
  | None => 0
  | Some s =>
      if String.eqb s "" then 0
      else
        match Text.digits_prefix (Text.seek_digit s) with
        | ([], _) => 0
        | (whole, rest) =>
            inject_Z (Text.decimal whole) * inject_Z (Server.multiplier (Server.unit_of rest))
        end
  end%Q.

(** [getQueueStats]: the loop runs over all the queues and the list is
    cut to ten entries afterwards. *)
Definition getQueueStats (queue_print : WriteResult) : Js.value :=
  match queue_print with
  | Throws _ => queue_result 0 no_totals []
  | Rows queues =>
      let totalQueues := Z.of_nat (length queues) in
      let acc := fold_left (queue_step parseBandwidth) queues no_totals in
      queue_result totalQueues acc (take 10 (queueList acc))
  end.

(** *** The rest of the legacy server

    The legacy server has no pool and no cache: a request connects, asks
    and closes.  Its state is the log of connects and closes, the next
    unused connection identity and [trafficHistory]; the queries are given
    by their replies. *)

Record State := {
  log : list ConnectionPool.event;
  fresh : ConnectionPool.Conn;
  trafficHistory : gmap string Sample
}.

(** What one device does during a request: the outcome of [connect], the
    reply to each query, the clock while the rates are computed, and the
    outcome of the [conn.close()] inside the [try]. *)
Record DeviceEnv := {
  connect_error : option string;
  resource_print : WriteResult;
  health_print : WriteResult;
  users_print : WriteResult;
  queue_print : WriteResult;
  bandwidth_print : WriteResult;
  now : Z;
  close_error : option string
}.

(** [connectToRouter]. *)
Definition connectToRouter (env : DeviceEnv) (config : ConnectionPool.RouterConfig)
  (st : State) : option ConnectionPool.Conn * State :=
  let conn := fresh st in
  let st1 := {| log := log st ++ [ConnectionPool.Connect conn (ConnectionPool.ip config)];
                fresh := S conn;
                trafficHistory := trafficHistory st |} in
  match connect_error env with
  | None => (Some conn, st1)
  | Some _ => (None, st1)
  end.

Definition close (conn : ConnectionPool.Conn) (st : State) : State :=
  {| log := log st ++ [ConnectionPool.Close conn];
     fresh := fresh st;
     trafficHistory := trafficHistory st |}.

(** [x || null] for a field that may be missing. *)
Definition field_or_null (x : option string) : Js.value :=
  match x with
  | Some s => if String.eqb s "" then Js.Null else Js.Str s
  | None => Js.Null
  end.

(** [getRouterResources]: a failed health query counts as an empty reply,
    and an empty resource reply gives the defaults. *)
Definition getRouterResources (resource_print health_print : WriteResult)
  : Js.value :=
  match resource_print with
  | Throws _ => Js.Null
  | Rows resources =>
      let health := match health_print with Rows rows => rows | Throws _ => [] end in
      let r0 : Row := default ∅ (head resources) in
      let h0 : Row := default ∅ (head health) in
      let totalMem := Text.parseInt_or (r0 !! "total-memory") 0 in
      let freeMem := Text.parseInt_or (r0 !! "free-memory") 0 in
      let usedMem := totalMem - freeMem in
      Js.Obj [
        ("cpu", num (Text.parseInt_or (r0 !! "cpu-load") 0));
        ("cpuLoad", Js.Str (Text.string_or (r0 !! "cpu-load") "0"));
        ("memoryTotal", num totalMem);
        ("memoryFree", num freeMem);
        ("memoryUsed", num usedMem);
        ("memoryUsage",
          if 0 <? totalMem
          then Js.Num (Js.Math_round
                 (Js.Finite (inject_Z usedMem / inject_Z totalMem * 100)))
          else num 0);
        ("uptime", Js.Str (Text.string_or (r0 !! "uptime") "0s"));
        ("version", Js.Str (Text.string_or (r0 !! "version") "unknown"));
        ("board", Js.Str (Text.string_or (r0 !! "board-name") "unknown"));
        ("temperature", field_or_null (h0 !! "temperature"));
        ("voltage", field_or_null (h0 !! "voltage"))
      ]
  end.

(** [getActiveUsers]: the running [pppoe-in] interfaces. *)
Definition getActiveUsers (interface_print : WriteResult) : Js.value :=
  match interface_print with
  | Throws _ => Server.users_object 0
  | Rows interfaces =>
      Server.users_object
        (Z.of_nat (length (filter
           (λ iface : Row, iface !! "type" = Some "pppoe-in"
                           ∧ iface !! "running" = Some "true") interfaces)))
  end.

(** The filter of the legacy [getBandwidthRates] on name and type. *)
Definition isRelevant (name : string) (type : option string) : bool :=
  Number.startsWith name "ether"
  || Number.startsWith name "vlan"
  || Number.startsWith name "bridge"
  || Number.startsWith name "pppoe"
  || match type with
     | Some t => existsb (String.eqb t) ["ether"; "vlan"; "bridge"; "ppp-out"]
     | None => false
     end.

(** The loop of the legacy [getBandwidthRates]; [interfaceCount] counts
    the entries pushed.  The loop ends at the twelfth entry ([break]) and
    at a row without a name (the [TypeError] goes to the inner [catch],
    which keeps what the loop has built). *)
Fixpoint bandwidth_loop (now routerId : Z) (interfaces : list Row)
  (interfaceCount : nat) (st : Server.BandwidthLoop) : Server.BandwidthLoop :=
  match interfaces with
  | [] => st
  | iface :: rest =>
      match iface !! "name" with
      | None => st
      | Some ifaceName =>
          if negb (isRelevant ifaceName (iface !! "type")) then
            bandwidth_loop now routerId rest interfaceCount st
          else if bool_decide (iface !! "disabled" = Some "true") then
            bandwidth_loop now routerId rest interfaceCount st
          else
            let currentRx := Text.parseInt_or (iface !! "rx-byte") 0 in
            let currentTx := Text.parseInt_or (iface !! "tx-byte") 0 in
            let '(rates, th) :=
              calculateRates now routerId ifaceName currentRx currentTx
                (Server.history st) in
            if Number.gt (rxRate rates) (Js.of_Z 1000)
               || Number.gt (txRate rates) (Js.of_Z 1000) then
              let primary := String.eqb ifaceName "ether1" in
              let st' :=
                {| Server.bandwidthList :=
                     Server.bandwidthList st ++
                     [{| Server.if_name := ifaceName;
                         Server.if_type := iface !! "type";
                         Server.if_rxRate := rxRate rates;
                         Server.if_txRate := txRate rates;
                         Server.if_rxBytes := currentRx;
                         Server.if_txBytes := currentTx;
                         Server.if_running :=
                           bool_decide (iface !! "running" = Some "true") |}];
                   Server.totalRxRate :=
                     if primary then rxRate rates else Server.totalRxRate st;
                   Server.totalTxRate :=
                     if primary then txRate rates else Server.totalTxRate st;
                   Server.history := th |} in
              if (12 <=? S interfaceCount)%nat then st'
              else bandwidth_loop now routerId rest (S interfaceCount) st'
            else
              bandwidth_loop now routerId rest interfaceCount
                {| Server.bandwidthList := Server.bandwidthList st;
                   Server.totalRxRate := Server.totalRxRate st;
                   Server.totalTxRate := Server.totalTxRate st;
                   Server.history := th |}
      end
  end.

(** The entry shown when no interface has traffic. *)
Definition placeholder : Server.Interface :=
  {| Server.if_name := "ether1"; Server.if_type := Some "ether";
     Server.if_rxRate := Js.of_Z 0; Server.if_txRate := Js.of_Z 0;
     Server.if_rxBytes := 0; Server.if_txBytes := 0;
     Server.if_running := true |}.

(** The legacy [getBandwidthRates]. *)
Definition getBandwidthRates (interface_print : WriteResult) (now routerId : Z)
  (th : gmap string Sample) : Js.value * gmap string Sample :=
  let st0 := {| Server.bandwidthList := []; Server.totalRxRate := Js.of_Z 0;
                Server.totalTxRate := Js.of_Z 0; Server.history := th |} in
  let st :=
    match interface_print with
    | Rows interfaces => bandwidth_loop now routerId interfaces 0 st0
    | Throws _ => st0
    end in
  let bandwidthList :=
    match Server.bandwidthList st with
    | [] => [placeholder]
    | l => l
    end in
  (Server.bandwidth_result (Server.totalRxRate st) (Server.totalTxRate st)
     (take 20 bandwidthList),
   Server.history st).

(** The snapshot of the legacy overview for a device that failed. *)
Definition failed_snapshot (config : ConnectionPool.RouterConfig)
  (status message : string) : Js.value :=
  Js.Obj [("id", num (ConnectionPool.id config));
          ("name", Js.Str (ConnectionPool.name config));
          ("ip", Js.Str (ConnectionPool.ip config));
          ("status", Js.Str status); ("error", Js.Str message);
          ("cpu", num 0); ("memoryUsage", num 0); ("uptime", Js.Str "0s");
          ("activeUsers", num 0)].

(** The callback of the legacy [GET /api/routers].  Inside its [try] only
    [conn.close()] can throw: the four queries handle their own failures. *)
Definition overviewOf (env : DeviceEnv) (config : ConnectionPool.RouterConfig)
  (st : State) : Js.value * State :=
  match connectToRouter env config st with
  | (None, st1) => (failed_snapshot config "offline" "Connection timeout", st1)
  | (Some conn, st1) =>
      let resources := getRouterResources (resource_print env) (health_print env) in
      let users := getActiveUsers (users_print env) in
      let queues := getQueueStats (queue_print env) in
      let '(bandwidth, th) :=
        getBandwidthRates (bandwidth_print env) (now env)
          (ConnectionPool.id config) (trafficHistory st1) in
      let st2 := close conn {| log := log st1; fresh := fresh st1;
                               trafficHistory := th |} in
      match close_error env with
      | None =>
          (Js.Obj (Js.spread
             [("id", num (ConnectionPool.id config));
              ("name", Js.Str (ConnectionPool.name config));
              ("ip", Js.Str (ConnectionPool.ip config));
              ("status", Js.Str (if Js.truthy resources then "online" else "error"));
              ("activeUsers", Js.get users "total");
              ("totalQueues", Js.get queues "total");
              ("activeQueues", Js.get queues "active");
              ("currentBandwidth", Js.get bandwidth "totalRxRateFormatted")]
             (props_of (Js.or resources
                (Js.Obj [("cpu", num 0); ("memoryUsage", num 0);
                         ("uptime", Js.Str "0s")])))),
           st2)
      | Some message =>
          (* catch (err): try { await conn.close(); } catch (e) {} *)
          (failed_snapshot config "error" message, close conn st2)
      end
  end.

(** The legacy [GET /api/routers]: the branches of [Promise.all], one
    after the other. *)
Fixpoint routersFrom (env : nat → DeviceEnv) (i : nat)
  (routerConfigs : list ConnectionPool.RouterConfig) (st : State)
  : list Js.value * State :=
  match routerConfigs with
  | [] => ([], st)
  | config :: rest =>
      let '(r, st1) := overviewOf (env i) config st in
      let '(rs, st2) := routersFrom env (S i) rest st1 in
      (r :: rs, st2)
  end.

Definition getRouters (env : nat → DeviceEnv)
  (routerConfigs : list ConnectionPool.RouterConfig) (st : State)
  : list Js.value * State :=
  routersFrom env 0 routerConfigs st.

End Legacy.

(** ** Definitions used to state the properties *)

Section statements.
Import ConnectionPool Server.

(** The string has no underscore. *)
Fixpoint no_underscore (s : string) : Prop :=
  match s with
  | EmptyString => True
  | String c rest => c ≠ "_"%char ∧ no_underscore rest
  end.

(** The freshness windows as the specification lists them, in
    milliseconds: overview 3 s, bandwidth 2 s, queue summary 10 s,
    interface statistics 5 s, resource statistics 3 s, anything else 5 s. *)
Definition ttl (category : string) : Z :=
  if String.eqb category "overview" then 3000
  else if String.eqb category "bandwidth" then 2000
  else if String.eqb category "queues" then 10000
  else if String.eqb category "interfaces" then 5000
  else if String.eqb category "resources" then 3000
  else 5000.

(** [Math.round(delta * 8 / (ms / 1000))] as an integer, for [ms ≠ 0]. *)
Definition round_rate (delta ms : Z) : Z := (16000 * delta + ms) / (2 * ms).

(** The hard ceiling as the specification words it: whatever the
    freshness windows are, an entry older than 30 s is not returned. *)
Definition hard_ceiling_in_get : Prop :=
  ∀ (p : t) (now id : Z) (category : string)
    (e : CacheEntry),
    cacheData p !! getCacheKey id category = Some e →
    now - timestamp e > 30000 →
    getFromCache now p id category = Js.Null.

(** A pool whose table gives the category ["history"] a window of 60 s,
    holding one entry stored at time 0. *)
Definition slow_pool : t :=
  setCache 0
    {| pools := ∅;
       cacheData := ∅;
       cacheTimeouts :=
         <["history" := 60000]> (cacheTimeouts new) |}
    1 "history" (Js.Str "stale").

(** The sample [calculateRates] stores. *)
Definition seed_of (now rx tx : Z) : Sample :=
  {| lastRx := rx; lastTx := tx; lastTime := now |}.


(** A history with one sample: both counters at 0 at time 0. *)
Definition seeded : gmap string Sample :=
  (Server.calculateRates 0 1 "ether1" 0 0 ∅).2.

(** The world once a stale session has been closed and taken out of the
    pool. *)
Definition evicted (cfg : RouterConfig) (e : PoolEntry)
  (w : World) : World :=
  with_pools
    (emit w (Close (connection e)))
    (delete (poolKeyOf cfg) (pools (this w))).

(** The same answers of the adapter, except that [close] throws. *)
Definition close_failing (env : ConnectEnv) : ConnectEnv :=
  {| close_throws := true;
     connect_error := connect_error env;
     now_connected := now_connected env |}.

(** A router, a pool that holds one session of it last used at time 0,
    and two behaviours of the adapter. *)
Definition router1 : RouterConfig :=
  {| id := 1; name := "core";
     ip := "10.0.0.1"; username := "admin";
     password := "secret"; port := None |}.

Definition session1 : PoolEntry :=
  {| connection := 0%nat; lastUsed := 0;
     useCount := 1; config := router1 |}.

Definition warm_world : World :=
  {| this :=
       {| pools := {[ poolKeyOf router1 := session1 ]};
          cacheData := ∅;
          cacheTimeouts := cacheTimeouts new |};
     log := [];
     fresh := 1%nat |}.

Definition cold_world : World :=
  {| this := new;
     log := [];
     fresh := 0%nat |}.

Definition reachable : ConnectEnv :=
  {| close_throws := false;
     connect_error := None;
     now_connected := 500100 |}.

Definition unreachable : ConnectEnv :=
  {| close_throws := true;
     connect_error := Some "connect ETIMEDOUT";
     now_connected := 515000 |}.

(** [w'] differs from [w] in the session and the cache entries of [cfg]
    at most. *)
Definition touches_only (cfg : RouterConfig) (w w' : World) : Prop :=
  cacheTimeouts (this w') = cacheTimeouts (this w)
  ∧ (∀ k, k ≠ poolKeyOf cfg → pools (this w') !! k = pools (this w) !! k)
  ∧ (∀ k, (∀ c, k ≠ getCacheKey (id cfg) c) →
          cacheData (this w') !! k = cacheData (this w) !! k).




(** A second router, and what two devices do during one request: the
    first cannot be reached, the second answers every query. *)
Definition router2 : RouterConfig :=
  {| id := 2; name := "edge";
     ip := "10.0.0.2"; username := "admin";
     password := "secret"; port := Some 8728 |}.

Definition resource_row : Row :=
  {[ "cpu-load" := "7"; "total-memory" := "1000"; "free-memory" := "250";
     "uptime" := "3d"; "version" := "7.1"; "board-name" := "RB4011" ]}.


Definition device_up : DeviceEnv :=
  {| t_start := 1000; conn_env := reachable;
     t_queries := 1100;
     resource_print := Rows [resource_row]; t_resources := 1150;
     interface_print := Rows [∅; ∅; ∅];
     queue_count := Rows [∅];
     queue_active_count := Rows [∅];
     t_queues := 1180; t_merge := 1200 |}.


(** A device that accepts the session and then fails the resource query,
    and the same device one second after its first request. *)
Definition device_faulty : DeviceEnv :=
  {| t_start := 1000; conn_env := reachable;
     t_queries := 1100;
     resource_print := Throws "timeout"; t_resources := 16100;
     interface_print := Rows [∅; ∅; ∅];
     queue_count := Rows [∅];
     queue_active_count := Rows [∅];
     t_queues := 1180; t_merge := 16100 |}.

Definition device_faulty_again : DeviceEnv :=
  {| t_start := 17100; conn_env := reachable;
     t_queries := 17100;
     resource_print := Rows [resource_row]; t_resources := 17150;
     interface_print := Rows [∅; ∅; ∅];
     queue_count := Rows [∅];
     queue_active_count := Rows [∅];
     t_queues := 17180; t_merge := 17200 |}.

(** Twenty-one enabled queues of 1 Mbit/s each way. *)
Definition queue_row : Row :=
  {[ "name" := "customer"; "target" := "10.1.0.0/24";
     "max-limit" := "1M/1M"; "bytes" := "10/20" ]}.

Definition many_queues : QueueEnv :=
  {| q_start := 0; queue_print := Rows (replicate 21 queue_row);
     q_answered := 5 |}.

(** The queue is not disabled. *)
Definition enabled (queue : Row) : bool :=
  negb (bool_decide (queue !! "disabled" = Some "true")).

End statements.

(** ** Notions and inputs of the further properties *)

Section statements_further.
Import ConnectionPool Server.






(** The names of the rows that pass the filter of the loop, in the order
    of the reply. *)
Definition relevant_names (interfaces : list Row) : list string :=
  omap (λ iface : Row,
          match iface !! "name" with
          | Some name =>
              if isVirtual name then None
              else if isRelevant name (iface !! "type") then Some name else None
          | None => None
          end) interfaces.




Definition one_interface : Row :=
  {[ "name" := "ether1"; "type" := "ether"; "rx-byte" := "1000";
     "tx-byte" := "500" ]}.

Definition bandwidth_up : BandwidthEnv :=
  {| b_start := 1100; running_print := Rows [one_interface];
     b_answered := 1150 |}.

Definition detail_faulty : DetailEnv :=
  {| d_device := device_faulty; d_queues := many_queues;
     d_bandwidth := bandwidth_up |}.

Definition single_up : SingleEnv :=
  {| s_start := 1000; s_conn := reachable; s_bandwidth := bandwidth_up;
     s_queues := many_queues; s_release := 1200 |}.

Definition single_again : SingleEnv :=
  {| s_start := 2000; s_conn := unreachable;
     s_bandwidth := {| b_start := 2050; running_print := Throws "busy";
                       b_answered := 2100 |};
     s_queues := many_queues; s_release := 2100 |}.

Definition cold_process : Process :=
  {| world := cold_world; trafficHistory := ∅ |}.

Definition stale_cache : World :=
  with_this cold_world (setCache 0 new 1 "overview" (Js.Str "snapshot")).

Definition nameless : BandwidthEnv :=
  {| b_start := 1100; running_print := Rows [one_interface; ∅];
     b_answered := 1150 |}.

(** An entry of the legacy list has more than 1000 bit/s in one direction. *)
Definition significant (i : Server.Interface) : Prop :=
  Number.gt (Server.if_rxRate i) (Js.of_Z 1000)
  || Number.gt (Server.if_txRate i) (Js.of_Z 1000) = true.

(** Every sample that the history holds for the router was taken less
    than two seconds before [now]. *)
Definition polled_recently (now routerId : Z) (th : gmap string Sample) : Prop :=
  ∀ name s, th !! historyKey routerId name = Some s → now - lastTime s < 2000.

Definition legacy_up : Legacy.DeviceEnv :=
  {| Legacy.connect_error := None;
     Legacy.resource_print := Rows [];
     Legacy.health_print := Throws "no such command";
     Legacy.users_print := Rows [];
     Legacy.queue_print := Rows [];
     Legacy.bandwidth_print := Rows [];
     Legacy.now := 5000;
     Legacy.close_error := None |}.

Definition legacy_down : Legacy.DeviceEnv :=
  {| Legacy.connect_error := Some "connect ETIMEDOUT";
     Legacy.resource_print := Throws "not connected";
     Legacy.health_print := Throws "not connected";
     Legacy.users_print := Throws "not connected";
     Legacy.queue_print := Throws "not connected";
     Legacy.bandwidth_print := Throws "not connected";
     Legacy.now := 15000;
     Legacy.close_error := None |}.

Definition legacy_fleet (i : nat) : Legacy.DeviceEnv :=
  match i with
  | O => legacy_down
  | S _ => legacy_up
  end.

Definition legacy_start : Legacy.State :=
  {| Legacy.log := []; Legacy.fresh := 0%nat; Legacy.trafficHistory := ∅ |}.

End statements_further.

(** * Properties *)

(** ** Keys *)

Lemma pretty_N_char_no_underscore x : pretty_N_char x ≠ "_"%char.
Proof. unfold pretty_N_char. by repeat case_match. Qed.

Lemma pretty_N_go_no_underscore x s :
  no_underscore s → no_underscore (pretty_N_go x s).
Proof.
  revert s. induction (N.lt_wf_0 x) as [x _ IH]; intros s Hs.
  destruct (decide (x = 0)%N) as [->|Hx].
  - by rewrite pretty_N_go_0.
  - rewrite pretty_N_go_step by lia. apply IH.
    + apply N.div_lt; lia.
    + split; [apply pretty_N_char_no_underscore | done].
Qed.

Lemma template_no_underscore z : no_underscore (Js.template z).
Proof.
  unfold Js.template, pretty, pretty_Z.
  destruct z as [|x|x]; simpl.
  - done.
  - unfold pretty, pretty_positive, pretty, pretty_N. case_decide; [done|].
    by apply pretty_N_go_no_underscore.
  - split; [done|].
    unfold pretty, pretty_positive, pretty, pretty_N. case_decide; [done|].
    by apply pretty_N_go_no_underscore.
Qed.

Lemma underscore_split s s' t t' :
  no_underscore s → no_underscore s' →
  s +:+ "_" +:+ t = s' +:+ "_" +:+ t' → s = s' ∧ t = t'.
Proof.
  revert s'. induction s as [|c s IH]; intros [|c' s'] Hs Hs' Heq; simpl in *.
  - by simplify_eq.
  - destruct Hs' as [Hc _]. by simplify_eq.
  - destruct Hs as [Hc _]. by simplify_eq.
  - destruct Hs as [_ Hs], Hs' as [_ Hs']. injection Heq as -> Heq.
    destruct (IH s' Hs Hs' Heq) as [-> ->]. done.
Qed.

(** The cache key determines the router and the category. *)
Lemma getCacheKey_inj id c id' c' :
  ConnectionPool.getCacheKey id c = ConnectionPool.getCacheKey id' c' →
  id = id' ∧ c = c'.
Proof.
  unfold ConnectionPool.getCacheKey. intros H.
  apply underscore_split in H as [H1 H2]; auto using template_no_underscore.
  split; [|done]. by apply (inj pretty).
Qed.


(** ** The response cache *)

Section cache.
Import ConnectionPool.

Lemma timeoutOf_new p category :
  cacheTimeouts p = cacheTimeouts new → timeoutOf p category = ttl category.
Proof.
  intros Hp. unfold timeoutOf, ttl. rewrite Hp. simpl.
  destruct (String.eqb_spec category "overview") as [->|?]; [done|].
  destruct (String.eqb_spec category "bandwidth") as [->|?]; [done|].
  destruct (String.eqb_spec category "queues") as [->|?]; [done|].
  destruct (String.eqb_spec category "interfaces") as [->|?]; [done|].
  destruct (String.eqb_spec category "resources") as [->|?]; [done|].
  by rewrite !lookup_insert_ne, lookup_empty by congruence.
Qed.

Lemma ttl_bound category : 0 < ttl category ≤ 10000.
Proof. unfold ttl. repeat case_match; lia. Qed.

Lemma getFromCache_setCache_same now now' p id c v :
  getFromCache now' (setCache now p id c v) id c
  = if now' - now <? timeoutOf p c then v else Js.Null.
Proof.
  unfold getFromCache, setCache, timeoutOf. simpl.
  by rewrite lookup_insert_eq.
Qed.

Lemma getFromCache_setCache_other now t p id c v id' c' :
  (id', c') ≠ (id, c) →
  getFromCache t (setCache now p id c v) id' c' = getFromCache t p id' c'.
Proof.
  intros Hne. unfold getFromCache, setCache, timeoutOf. simpl.
  rewrite lookup_insert_ne; [done|].
  intros [-> ->]%getCacheKey_inj. done.
Qed.

(** No function of the pool changes the table of freshness windows. *)
Lemma cacheTimeouts_unchanged now env cfg w id c v :
  cacheTimeouts (setCache now (this w) id c v) = cacheTimeouts (this w)
  ∧ cacheTimeouts (this (getConnection now env cfg w).2) = cacheTimeouts (this w)
  ∧ cacheTimeouts (this (releaseConnection now cfg w)) = cacheTimeouts (this w)
  ∧ cacheTimeouts (this (closeConnection cfg w)) = cacheTimeouts (this w)
  ∧ cacheTimeouts (this (cleanup now w)) = cacheTimeouts (this w).
Proof.
  split_and!; try done.
  - unfold getConnection, connectFresh.
    destruct (pools (this w) !! poolKeyOf cfg); repeat case_match; done.
  - unfold releaseConnection. by case_match.
  - unfold closeConnection. by case_match.
Qed.



(** C5, counterexample.  With a window of 60 s for a category,
    [getFromCache] returns an entry that is 40 s old: the function compares
    the age with the window only. *)
Lemma hard_ceiling_in_get_fails : ¬ hard_ceiling_in_get.
Proof.
  intros H.
  specialize (H slow_pool 40000 1 "history"
                {| data := Js.Str "stale"; timestamp := 0 |}).
  assert (getFromCache 40000 slow_pool 1 "history" = Js.Str "stale") as Hget
    by (vm_compute; reflexivity).
  rewrite H in Hget; [discriminate| by vm_compute | reflexivity].
Qed.

Lemma cleanup_cache_lookup now w k e :
  cacheData (this (cleanup now w)) !! k = Some e
  ↔ cacheData (this w) !! k = Some e ∧ now - timestamp e ≤ 30000.
Proof.
  unfold cleanup. simpl. rewrite map_lookup_filter_Some.
  unfold cache_expired. simpl. split; intros [? ?]; split; auto; lia.
Qed.

(** C5, as amended.  With the windows of the constructor, which are at
    most 10 s, [getFromCache] never returns an entry older than 30 s.  The
    30 s ceiling itself is applied by [cleanup]: whatever the windows are,
    the entries that survive a pass are at most 30 s old, so a read at the
    time of the pass returns nothing older. *)
Theorem hard_ceiling_by_cleanup :
  (∀ (p : t) (now id : Z) (category : string) (e : CacheEntry),
     cacheTimeouts p = cacheTimeouts new →
     cacheData p !! getCacheKey id category = Some e →
     now - timestamp e > 30000 →
     getFromCache now p id category = Js.Null)
  ∧ (∀ (w : World) (now id : Z) (category : string),
       (∀ e, cacheData (this (cleanup now w)) !! getCacheKey id category = Some e →
             now - timestamp e ≤ 30000)
       ∧ (getFromCache now (this (cleanup now w)) id category ≠ Js.Null →
          ∃ e, cacheData (this w) !! getCacheKey id category = Some e
               ∧ now - timestamp e ≤ 30000
               ∧ getFromCache now (this (cleanup now w)) id category = data e)).
Proof.
  split.
  - intros p now id category e Hp He Hold.
    unfold getFromCache. rewrite He, (timeoutOf_new _ _ Hp).
    pose proof (ttl_bound category).
    by rewrite (proj2 (Z.ltb_ge _ _)) by lia.
  - intros w now id category. split.
    + intros e He. by apply cleanup_cache_lookup in He as [_ ?].
    + unfold getFromCache.
      destruct (cacheData (this (cleanup now w)) !! getCacheKey id category)
        as [e|] eqn:He; [|done].
      apply cleanup_cache_lookup in He as [He Hage].
      case_match; [|done]. intros _. by exists e.
Qed.

Lemma hard_ceiling_by_cleanup_witness :
  getFromCache 40000 (setCache 0 new 1 "queues" (Js.Str "stale")) 1 "queues"
  = Js.Null.
Proof.
  apply (proj1 hard_ceiling_by_cleanup
           (setCache 0 new 1 "queues" (Js.Str "stale")) 40000 1 "queues"
           {| data := Js.Str "stale"; timestamp := 0 |});
    [reflexivity | vm_compute; reflexivity | reflexivity].
Defined.

End cache.

(** ** The rate engine *)

Lemma Qfloor_div (a b : Z) : b ≠ 0 → Qfloor (inject_Z a / inject_Z b) = a / b.
Proof.
  intros Hb. destruct b as [|p|p]; [done| |].
  - unfold Qdiv, Qmult, Qinv, inject_Z, Qfloor. simpl. by rewrite Z.mul_1_r.
  - unfold Qdiv, Qmult, Qinv, inject_Z, Qfloor. simpl.
    rewrite <-(Z.div_opp_opp a (Z.neg p)) by done.
    f_equal. lia.
Qed.

Lemma timeDiff_zero now h :
  Qeq_bool (timeDiffOf now h) 0 = (now - lastTime h =? 0).
Proof.
  unfold timeDiffOf, Qeq_bool, Qdiv, Qmult, Qinv, inject_Z. simpl.
  destruct (Z.eqb_spec (now - lastTime h) 0) as [->|?]; [done|].
  apply Z.eqb_neq. lia.
Qed.

Lemma timeDiff_ge_1500 now h :
  Qle_bool (3 # 2) (timeDiffOf now h) = (1500 <=? now - lastTime h).
Proof.
  unfold timeDiffOf, Qle_bool, Qdiv, Qmult, Qinv, inject_Z. simpl.
  destruct (Z.leb_spec 1500 (now - lastTime h)).
  - apply Z.leb_le. lia.
  - apply Z.leb_gt. lia.
Qed.

Lemma timeDiff_ge_2000 now h :
  Qle_bool 2 (timeDiffOf now h) = (2000 <=? now - lastTime h).
Proof.
  unfold timeDiffOf, Qle_bool, Qdiv, Qmult, Qinv, inject_Z. simpl.
  destruct (Z.leb_spec 2000 (now - lastTime h)).
  - apply Z.leb_le. lia.
  - apply Z.leb_gt. lia.
Qed.

Lemma round_div_rate (delta ms : Z) :
  ms ≠ 0 →
  Js.Math_round (Js.div (inject_Z (delta * 8)) (inject_Z ms / inject_Z 1000))
  = Js.of_Z (round_rate delta ms).
Proof.
  intros Hms. unfold Js.div.
  assert (Qeq_bool (inject_Z ms / inject_Z 1000) 0 = false) as ->.
  { unfold Qeq_bool, Qdiv, Qmult, Qinv, inject_Z. simpl. apply Z.eqb_neq. lia. }
  unfold Js.Math_round, Js.of_Z, round_rate. do 2 f_equal.
  rewrite <-Qfloor_div by lia.
  apply Qfloor_comp.
  rewrite !inject_Z_plus, !inject_Z_mult.
  field. intros H. apply Hms. unfold Qeq in H. simpl in H. lia.
Qed.

Lemma round_div_one (delta : Z) :
  Js.Math_round (Js.div (inject_Z (delta * 8)) 1) = Js.of_Z (delta * 8).
Proof.
  unfold Js.div, Js.Math_round, Js.of_Z. simpl. do 2 f_equal.
  unfold Qfloor, Qdiv, Qmult, Qinv, Qplus, inject_Z. simpl.
  symmetry. apply (Z.div_unique _ _ _ 1); lia.
Qed.

Lemma max_zero (z : Z) :
  Js.Math_max (Js.of_Z 0) (Js.of_Z z) = Js.of_Z (Z.max 0 z).
Proof.
  unfold Js.Math_max, Js.of_Z, Qle_bool, inject_Z. simpl.
  destruct (Z.leb_spec (0 * 1) (z * 1)); do 2 f_equal; lia.
Qed.

(** The three branches of the optimised [calculateRates] once a sample is
    stored, with the rounding carried out. *)
Lemma Server_calculateRates_stored now routerId iface rx tx th h :
  th !! historyKey routerId iface = Some h →
  Server.calculateRates now routerId iface rx tx th
  = let ms := now - lastTime h in
    let rxDiff := counterDiff rx (lastRx h) in
    let txDiff := counterDiff tx (lastTx h) in
    if 1500 <=? ms then
      ({| rxRate := Js.of_Z (Z.max 0 (round_rate rxDiff ms));
          txRate := Js.of_Z (Z.max 0 (round_rate txDiff ms)) |},
       <[historyKey routerId iface := seed_of now rx tx]> th)
    else if ms =? 0 then
      ({| rxRate := Js.of_Z (rxDiff * 8); txRate := Js.of_Z (txDiff * 8) |}, th)
    else
      ({| rxRate := Js.of_Z (round_rate rxDiff ms);
          txRate := Js.of_Z (round_rate txDiff ms) |}, th).
Proof.
  intros Hh. unfold Server.calculateRates. rewrite Hh. cbv zeta.
  rewrite timeDiff_ge_1500, timeDiff_zero.
  destruct (Z.leb_spec 1500 (now - lastTime h)).
  - unfold timeDiffOf. rewrite !round_div_rate, !max_zero by lia. done.
  - destruct (Z.eqb_spec (now - lastTime h) 0).
    + by rewrite !round_div_one.
    + unfold timeDiffOf. by rewrite !round_div_rate.
Qed.

Lemma Legacy_calculateRates_stored now routerId iface rx tx th h :
  th !! historyKey routerId iface = Some h →
  Legacy.calculateRates now routerId iface rx tx th
  = let ms := now - lastTime h in
    if 2000 <=? ms then
      ({| rxRate := Js.of_Z (Z.max 0 (round_rate (counterDiff rx (lastRx h)) ms));
          txRate := Js.of_Z (Z.max 0 (round_rate (counterDiff tx (lastTx h)) ms)) |},
       <[historyKey routerId iface := seed_of now rx tx]> th)
    else ({| rxRate := Js.of_Z 0; txRate := Js.of_Z 0 |}, th).
Proof.
  intros Hh. unfold Legacy.calculateRates. rewrite Hh. cbv zeta.
  rewrite timeDiff_ge_2000.
  destruct (Z.leb_spec 2000 (now - lastTime h)); [|done].
  unfold timeDiffOf. rewrite !round_div_rate, !max_zero by lia. done.
Qed.


Lemma Server_calculateRates_unseen now routerId iface rx tx th :
  th !! historyKey routerId iface = None →
  Server.calculateRates now routerId iface rx tx th
  = ({| rxRate := Js.of_Z 0; txRate := Js.of_Z 0 |},
     <[historyKey routerId iface := seed_of now rx tx]> th).
Proof. intros Hnone. unfold Server.calculateRates. by rewrite Hnone. Qed.

Lemma Legacy_calculateRates_unseen now routerId iface rx tx th :
  th !! historyKey routerId iface = None →
  Legacy.calculateRates now routerId iface rx tx th
  = ({| rxRate := Js.of_Z 0; txRate := Js.of_Z 0 |},
     <[historyKey routerId iface := seed_of now rx tx]> th).
Proof. intros Hnone. unfold Legacy.calculateRates. by rewrite Hnone. Qed.

(** C6.  For a key that the rate tracker does not hold yet,
    [calculateRates] returns zero rates whatever the counters are and
    stores the counters and the time as the first sample of the key; both
    servers do. *)
Theorem calculateRates_first_sample (now routerId : Z) (iface : string)
  (rx tx : Z) (th : gmap string Sample) :
  th !! historyKey routerId iface = None →
  Server.calculateRates now routerId iface rx tx th
  = ({| rxRate := Js.of_Z 0; txRate := Js.of_Z 0 |},
     <[historyKey routerId iface := seed_of now rx tx]> th)
  ∧ Legacy.calculateRates now routerId iface rx tx th
    = ({| rxRate := Js.of_Z 0; txRate := Js.of_Z 0 |},
       <[historyKey routerId iface := seed_of now rx tx]> th).
Proof.
  intros Hnone. split.
  - by apply Server_calculateRates_unseen.
  - by apply Legacy_calculateRates_unseen.
Qed.

Lemma calculateRates_first_sample_witness :
  Server.calculateRates 1000 1 "ether1" 123456 789 ∅
  = ({| rxRate := Js.of_Z 0; txRate := Js.of_Z 0 |},
     <[historyKey 1 "ether1" := seed_of 1000 123456 789]> ∅)
  ∧ Legacy.calculateRates 1000 1 "ether1" 123456 789 ∅
    = ({| rxRate := Js.of_Z 0; txRate := Js.of_Z 0 |},
       <[historyKey 1 "ether1" := seed_of 1000 123456 789]> ∅).
Proof.
  apply (calculateRates_first_sample 1000 1 "ether1" 123456 789 ∅).
  reflexivity.
Defined.






(** C10.  [calculateRates] returns on every path, and both rates it
    returns are finite integers: no path divides by zero.  When the call
    comes at the very time of the stored sample, as the second of two
    calls at one timestamp does, the divisor is one second and the rates
    are the counter deltas times 8. *)
Theorem calculateRates_finite_integer :
  (∀ (now routerId : Z) (iface : string) (rx tx : Z) (th : gmap string Sample),
     Js.is_integer (rxRate (Server.calculateRates now routerId iface rx tx th).1)
     ∧ Js.is_integer (txRate (Server.calculateRates now routerId iface rx tx th).1))
  ∧ (∀ (now routerId : Z) (iface : string) (rx tx : Z) (th : gmap string Sample)
       (h : Sample),
       th !! historyKey routerId iface = Some h →
       lastTime h = now →
       Server.calculateRates now routerId iface rx tx th
       = ({| rxRate := Js.of_Z (counterDiff rx (lastRx h) * 8);
             txRate := Js.of_Z (counterDiff tx (lastTx h) * 8) |}, th))
  ∧ (∀ (now routerId : Z) (iface : string) (rx0 tx0 rx tx : Z)
       (th : gmap string Sample),
       th !! historyKey routerId iface = None →
       (Server.calculateRates now routerId iface rx tx
          (Server.calculateRates now routerId iface rx0 tx0 th).2).1
       = {| rxRate := Js.of_Z (counterDiff rx rx0 * 8);
            txRate := Js.of_Z (counterDiff tx tx0 * 8) |}).
Proof.
  split_and!.
  - intros now routerId iface rx tx th.
    destruct (th !! historyKey routerId iface) as [h|] eqn:Hh.
    + rewrite (Server_calculateRates_stored _ _ _ _ _ _ _ Hh). cbv zeta.
      repeat case_match; simpl; split; eexists; reflexivity.
    + rewrite (Server_calculateRates_unseen _ _ _ _ _ _ Hh). simpl.
      split; eexists; reflexivity.
  - intros now routerId iface rx tx th h Hh Hnow.
    rewrite (Server_calculateRates_stored _ _ _ _ _ _ _ Hh). cbv zeta.
    by replace (now - lastTime h) with 0 by lia.
  - intros now routerId iface rx0 tx0 rx tx th Hnone.
    rewrite (Server_calculateRates_unseen _ _ _ _ _ _ Hnone). simpl.
    rewrite (Server_calculateRates_stored _ _ _ _ _ _ (seed_of now rx0 tx0))
      by apply lookup_insert_eq.
    simpl. by rewrite Z.sub_diag.
Qed.

Lemma calculateRates_finite_integer_witness :
  Server.calculateRates 0 1 "ether1" 700 30 seeded
  = ({| rxRate := Js.of_Z 5600; txRate := Js.of_Z 240 |}, seeded).
Proof.
  destruct calculateRates_finite_integer as (_ & Hsame & _).
  exact (Hsame 0 1 "ether1" 700 30 seeded (seed_of 0 0 0) eq_refl eq_refl).
Defined.

(** ** The connection pool *)

Section pool.
Import ConnectionPool.

(** C3.  When the pool holds a session of the device that was used less
    than 120 s ago, [getConnection] returns that very session, sets its
    [lastUsed] to the current time, adds one to its [useCount] and makes no
    call to the adapter.  Otherwise the stale session is closed, whether or
    not [close] throws, and removed, and only then a connect is attempted
    on a new session: the pool holds the new session when it succeeds and
    no session of the device when it fails. *)
Theorem getConnection_reuse_or_reconnect (now : Z) (env : ConnectEnv)
  (cfg : RouterConfig) (w : World) (e : PoolEntry) :
  pools (this w) !! poolKeyOf cfg = Some e →
  let r := getConnection now env cfg w in
  (now - lastUsed e < 120000 →
     r.1 = Some (connection e)
     ∧ pools (this r.2) !! poolKeyOf cfg
       = Some {| connection := connection e; lastUsed := now;
                 useCount := useCount e + 1; config := config e |}
     ∧ (∀ k, k ≠ poolKeyOf cfg → pools (this r.2) !! k = pools (this w) !! k)
     ∧ log r.2 = log w
     ∧ fresh r.2 = fresh w)
  ∧ (120000 ≤ now - lastUsed e →
     r = connectFresh env cfg (evicted cfg e w)
     ∧ r = getConnection now (close_failing env) cfg w
     ∧ log r.2 = log w ++ [Close (connection e); Connect (fresh w) (ip cfg)]
     ∧ match connect_error env with
       | None =>
           r.1 = Some (fresh w)
           ∧ pools (this r.2) !! poolKeyOf cfg
             = Some {| connection := fresh w; lastUsed := now_connected env;
                       useCount := 1; config := cfg |}
       | Some _ => r.1 = None ∧ pools (this r.2) !! poolKeyOf cfg = None
       end).
Proof.
  intros He r. subst r. unfold getConnection. rewrite He. cbv zeta. split.
  - intros Hfresh. rewrite (proj2 (Z.ltb_lt _ _)) by done. simpl.
    rewrite lookup_insert_eq. repeat split; [|done..].
    intros k Hk. by rewrite lookup_insert_ne.
  - intros Hstale. rewrite (proj2 (Z.ltb_ge _ _)) by done.
    split; [done|]. split; [done|].
    unfold connectFresh. simpl.
    destruct (connect_error env); simpl.
    + rewrite lookup_delete_eq, <-app_assoc. done.
    + rewrite lookup_insert_eq, <-app_assoc. done.
Qed.

Lemma getConnection_reuse_or_reconnect_witness :
  (getConnection 60000 reachable router1 warm_world).1 = Some 0%nat
  ∧ log (getConnection 60000 reachable router1 warm_world).2 = []
  ∧ (getConnection 500000 unreachable router1 warm_world).1 = None
  ∧ log (getConnection 500000 unreachable router1 warm_world).2
    = [Close 0%nat; Connect 1%nat "10.0.0.1"].
Proof.
  destruct (getConnection_reuse_or_reconnect 60000 reachable router1
              warm_world session1) as [Hreuse _]; [reflexivity|].
  destruct (getConnection_reuse_or_reconnect 500000 unreachable router1
              warm_world session1) as [_ Hstale]; [reflexivity|].
  destruct Hreuse as (H1 & _ & _ & H2 & _); [reflexivity|].
  destruct Hstale as (_ & _ & H3 & H4 & _); [simpl; lia|].
  repeat split; assumption.
Defined.

End pool.

(** ** The fleet overview *)

Section fleet.
Import ConnectionPool Server.

Lemma touches_only_refl cfg w : touches_only cfg w w.
Proof. by unfold touches_only. Qed.

Lemma touches_only_trans cfg w1 w2 w3 :
  touches_only cfg w1 w2 → touches_only cfg w2 w3 → touches_only cfg w1 w3.
Proof.
  intros (T1 & P1 & C1) (T2 & P2 & C2). unfold touches_only. split_and!.
  - congruence.
  - intros k Hk. rewrite P2, P1; done.
  - intros k Hk. rewrite C2, C1; done.
Qed.

Lemma touches_emit cfg w e : touches_only cfg w (emit w e).
Proof. by unfold touches_only. Qed.

Lemma touches_setCache cfg w now c v :
  touches_only cfg w (with_this w (setCache now (this w) (id cfg) c v)).
Proof.
  unfold touches_only; simpl; split_and!; [done..|].
  intros k Hk. by rewrite lookup_insert_ne.
Qed.






Lemma touches_getRouterResources cfg env conn w :
  touches_only cfg w (getRouterResources env conn cfg w).2.
Proof.
  unfold getRouterResources. case_match; [apply touches_only_refl|].
  destruct (resource_print env) as [[|r0 rows]|m]; simpl;
    try apply touches_emit.
  eapply touches_only_trans; [apply touches_emit|].
  apply (touches_setCache cfg (emit w _)).
Qed.

Lemma touches_getActiveUsers cfg env conn w :
  touches_only cfg w (getActiveUsers env conn cfg w).2.
Proof.
  unfold getActiveUsers. destruct (interface_print env); apply touches_emit.
Qed.

Lemma touches_getQueueStatsLight cfg env conn w :
  touches_only cfg w (getQueueStatsLight env conn cfg w).2.
Proof.
  unfold getQueueStatsLight. case_match; [apply touches_only_refl|].
  destruct (queue_count env) as [queues|m]; simpl; [|apply touches_emit].
  destruct (queue_active_count env) as [active|m]; simpl.
  - eapply touches_only_trans; [apply touches_emit|].
    eapply touches_only_trans; [apply touches_emit|].
    apply (touches_setCache cfg (emit (emit w _) _)).
  - eapply touches_only_trans; apply touches_emit.
Qed.






Lemma connectFresh_cache env cfg w :
  cacheTimeouts (this (connectFresh env cfg w).2) = cacheTimeouts (this w)
  ∧ cacheData (this (connectFresh env cfg w).2) = cacheData (this w).
Proof. unfold connectFresh. by destruct (connect_error env). Qed.

Lemma getConnection_cache now env cfg w :
  cacheTimeouts (this (getConnection now env cfg w).2) = cacheTimeouts (this w)
  ∧ cacheData (this (getConnection now env cfg w).2) = cacheData (this w).
Proof.
  unfold getConnection.
  destruct (pools (this w) !! poolKeyOf cfg) as [e|]; [|apply connectFresh_cache].
  case_match; [done|]. 
  destruct (connectFresh_cache env cfg
    (with_pools (emit w (Close (connection e)))
       (delete (poolKeyOf cfg) (pools (this (emit w (Close (connection e)))))))) as [-> ->].
  done.
Qed.










(** A device whose session is obtained and whose resource query fails
    gets the status [error], and that snapshot is stored in the cache
    under [overview]. *)
Lemma overviewOf_error_cached env cfg w conn w1 :
  Js.truthy (getFromCache (t_start env) (this w) (id cfg) "overview") = false →
  getConnection (t_start env) (conn_env env) cfg w = (Some conn, w1) →
  Js.truthy (getFromCache (t_queries env) (this w) (id cfg) "resources") = false →
  (resource_print env = Rows [] ∨ ∃ m, resource_print env = Throws m) →
  Js.get (overviewOf env cfg w).1 "status" = Js.Str "error"
  ∧ cacheData (this (overviewOf env cfg w).2) !! getCacheKey (id cfg) "overview"
    = Some {| data := (overviewOf env cfg w).1; timestamp := t_merge env |}.
Proof.
  intros Hmiss Hconn Hres Hfail. unfold overviewOf. rewrite Hmiss, Hconn.
  pose proof (getConnection_cache (t_start env) (conn_env env) cfg w) as [T D].
  rewrite Hconn in T, D. simpl in T, D.
  assert ((getRouterResources env conn cfg w1).1 = Js.Null) as Hnull.
  { unfold getRouterResources.
    assert (getFromCache (t_queries env) (this w1) (id cfg) "resources"
            = getFromCache (t_queries env) (this w) (id cfg) "resources") as ->
      by (unfold getFromCache, timeoutOf; by rewrite T, D).
    rewrite Hres. by destruct Hfail as [->|[m ->]]. }
  destruct (getRouterResources env conn cfg w1) as [resources w2].
  simpl in Hnull. subst resources.
  destruct (getActiveUsers env conn cfg w2) as [users w3].
  destruct (getQueueStatsLight env conn cfg w3) as [queues w4].
  simpl. split; [done|]. by rewrite lookup_insert_eq.
Qed.

(** C2, the failing input.  Router 1 accepts the session and its resource
    query times out: the snapshot has the status [error] and is stored
    under [overview]; the session stays in the pool; a request one second
    later gets the same snapshot from the cache while the adapter is not
    called at all. *)
Theorem overview_caches_errored_snapshot :
  Js.get (overviewOf device_faulty router1 cold_world).1 "status" = Js.Str "error"
  ∧ cacheData (this (overviewOf device_faulty router1 cold_world).2)
      !! getCacheKey 1 "overview"
    = Some {| data := (overviewOf device_faulty router1 cold_world).1;
              timestamp := 16100 |}
  ∧ is_Some (pools (this (overviewOf device_faulty router1 cold_world).2)
               !! poolKeyOf router1)
  ∧ (overviewOf device_faulty_again router1
       (overviewOf device_faulty router1 cold_world).2).1
    = (overviewOf device_faulty router1 cold_world).1
  ∧ log (overviewOf device_faulty_again router1
           (overviewOf device_faulty router1 cold_world).2).2
    = log (overviewOf device_faulty router1 cold_world).2.
Proof.
  destruct (overviewOf_error_cached device_faulty router1 cold_world 0%nat
              (getConnection 1000 reachable router1 cold_world).2)
    as [Hstatus Hcached]; [reflexivity..| |].
  { right. by eexists. }
  split_and!; [exact Hstatus | exact Hcached | by eexists | reflexivity..].
Qed.

End fleet.

(** ** The queue statistics *)

Section queues.
Import ConnectionPool Server.

Lemma queue_step_active parseBandwidth queues acc :
  activeQueues (fold_left (queue_step parseBandwidth) queues acc)
  = activeQueues acc + Z.of_nat (length (filter (λ q, enabled q) queues)).
Proof.
  revert acc. induction queues as [|queue rest IH]; intros acc; simpl.
  - lia.
  - rewrite IH. unfold queue_step. simpl. fold (enabled queue).
    rewrite filter_cons. destruct (enabled queue) eqn:Hq; simpl; lia.
Qed.

Lemma queue_step_length parseBandwidth queues acc :
  length (queueList (fold_left (queue_step parseBandwidth) queues acc))
  = (length (queueList acc) + length queues)%nat.
Proof.
  revert acc. induction queues as [|queue rest IH]; intros acc; simpl.
  - lia.
  - rewrite IH. simpl. rewrite length_app. simpl. lia.
Qed.

(** What [getQueueStatsFull] counts: every queue in [total], the enabled
    ones among the first twenty in [active], and it lists at most twenty
    queues; the legacy [getQueueStats] counts the enabled ones among
    all. *)
Lemma getQueueStatsFull_counts env conn cfg w queues :
  Js.truthy (getFromCache (q_start env) (this w) (id cfg) "queues") = false →
  queue_print env = Rows queues →
  Js.get (getQueueStatsFull env conn cfg w).1 "total"
  = num (Z.of_nat (length queues))
  ∧ Js.get (getQueueStatsFull env conn cfg w).1 "active"
    = num (Z.of_nat (length (filter (λ q, enabled q) (take 20 queues))))
  ∧ (∃ shown, Js.get (getQueueStatsFull env conn cfg w).1 "queues" = Js.Arr shown
              ∧ length shown = (20 `min` length queues)%nat)
  ∧ Js.get (Legacy.getQueueStats (Rows queues)) "active"
    = num (Z.of_nat (length (filter (λ q, enabled q) queues))).
Proof.
  intros Hmiss Hrows. unfold getQueueStatsFull, Legacy.getQueueStats.
  rewrite Hmiss, Hrows. simpl. rewrite !queue_step_active. split_and!; try done.
  eexists. split; [done|]. by rewrite queue_step_length, length_take.
Qed.

(** C9, the failing input.  For twenty-one enabled queues of 1 Mbit/s,
    [getQueueStatsFull] lists twenty queues and reports 21 queues in all,
    of which 20 active and 1 disabled, and 20 Mbit/s of limits each way:
    only [total] covers the full set.  The legacy [getQueueStats] reports
    21 active, none disabled and 21 Mbit/s on the same rows. *)
Theorem queue_totals_cover_first_twenty :
  Js.get (getQueueStatsFull many_queues 0%nat router1 cold_world).1 "total" = num 21
  ∧ Js.get (getQueueStatsFull many_queues 0%nat router1 cold_world).1 "active" = num 20
  ∧ Js.get (getQueueStatsFull many_queues 0%nat router1 cold_world).1 "disabled" = num 1
  ∧ Js.get (getQueueStatsFull many_queues 0%nat router1 cold_world).1 "totalBandwidthUp"
    = Js.FormatBps 20000000
  ∧ Js.get (getQueueStatsFull many_queues 0%nat router1 cold_world).1 "totalBandwidthDown"
    = Js.FormatBps 20000000
  ∧ (∃ shown,
       Js.get (getQueueStatsFull many_queues 0%nat router1 cold_world).1 "queues"
       = Js.Arr shown ∧ length shown = 20%nat)
  ∧ Js.get (Legacy.getQueueStats (Rows (replicate 21 queue_row))) "active" = num 21
  ∧ Js.get (Legacy.getQueueStats (Rows (replicate 21 queue_row))) "disabled" = num 0
  ∧ Js.get (Legacy.getQueueStats (Rows (replicate 21 queue_row))) "totalBandwidthUp"
    = Js.FormatBps 21000000.
Proof.
  split_and!; try (vm_compute; reflexivity).
  eexists. split; vm_compute; reflexivity.
Qed.

End queues.

(** * Further properties *)

(** ** The pool: release, close and cleanup *)

Section pool_lifecycle.
Import ConnectionPool.

(** X1.  [releaseConnection] does nothing for a router without a pooled
    session; otherwise it only stamps the session with the current time:
    the connection, the use count, the other sessions, the cache and the
    adapter are untouched, and a [getConnection] in the following 120 s
    returns that connection without any adapter call. *)
Theorem releaseConnection_keeps_session (now : Z) (cfg : RouterConfig) (w : World) :
  (pools (this w) !! poolKeyOf cfg = None → releaseConnection now cfg w = w)
  ∧ (∀ e, pools (this w) !! poolKeyOf cfg = Some e →
       pools (this (releaseConnection now cfg w)) !! poolKeyOf cfg
       = Some {| connection := connection e; lastUsed := now;
                 useCount := useCount e; config := config e |}
       ∧ (∀ k, k ≠ poolKeyOf cfg →
            pools (this (releaseConnection now cfg w)) !! k = pools (this w) !! k)
       ∧ log (releaseConnection now cfg w) = log w
       ∧ cacheData (this (releaseConnection now cfg w)) = cacheData (this w)
       ∧ (∀ now' env, now' - now < 120000 →
            (getConnection now' env cfg (releaseConnection now cfg w)).1
            = Some (connection e)
            ∧ log (getConnection now' env cfg (releaseConnection now cfg w)).2
              = log w)).
Proof.
  unfold releaseConnection. split.
  - by intros ->.
  - intros e ->. simpl. rewrite lookup_insert_eq. split_and!; try done.
    + intros k Hk. by rewrite lookup_insert_ne.
    + intros now' env Hlt. unfold getConnection. simpl.
      rewrite lookup_insert_eq. simpl.
      by rewrite (proj2 (Z.ltb_lt _ _)).
Qed.

(** X2.  [closeConnection] does nothing for a router without a pooled
    session; otherwise it closes that connection once and drops the entry,
    leaving the other sessions and the cache alone; in both cases the next
    [getConnection] for the router has to connect anew. *)
Theorem closeConnection_evicts (cfg : RouterConfig) (w : World) :
  (pools (this w) !! poolKeyOf cfg = None → closeConnection cfg w = w)
  ∧ (∀ e, pools (this w) !! poolKeyOf cfg = Some e →
       log (closeConnection cfg w) = log w ++ [Close (connection e)])
  ∧ pools (this (closeConnection cfg w)) !! poolKeyOf cfg = None
  ∧ (∀ k, k ≠ poolKeyOf cfg →
       pools (this (closeConnection cfg w)) !! k = pools (this w) !! k)
  ∧ cacheData (this (closeConnection cfg w)) = cacheData (this w)
  ∧ (∀ now env,
       getConnection now env cfg (closeConnection cfg w)
       = connectFresh env cfg (closeConnection cfg w)).
Proof.
  unfold closeConnection.
  destruct (pools (this w) !! poolKeyOf cfg) as [e|] eqn:He; simpl.
  - split_and!; try done.
    + intros e' [= <-]. done.
    + by rewrite lookup_delete_eq.
    + intros k Hk. by rewrite lookup_delete_ne.
    + intros now env. unfold getConnection. simpl. by rewrite lookup_delete_eq.
  - split_and!; try done.
    intros now env. unfold getConnection. by rewrite He.
Qed.

Lemma cleanup_pool_lookup now w k e :
  pools (this (cleanup now w)) !! k = Some e
  ↔ pools (this w) !! k = Some e ∧ now - lastUsed e ≤ 300000.
Proof.
  unfold cleanup. simpl. rewrite map_lookup_filter_Some.
  unfold pool_expired. simpl. split; intros [? ?]; split; auto; lia.
Qed.

(** X3.  [cleanup] keeps exactly the sessions used in the last 300 s and
    closes exactly the connections of the others.  A session idle for
    between 120 s and 300 s survives the pass although [getConnection]
    will not reuse it: the next [getConnection] closes it and connects
    anew. *)
Theorem cleanup_closes_expired_sessions (now : Z) (w : World) :
  (∀ k e, pools (this (cleanup now w)) !! k = Some e
          ↔ pools (this w) !! k = Some e ∧ now - lastUsed e ≤ 300000)
  ∧ (∃ closed,
       log (cleanup now w) = log w ++ closed
       ∧ ∀ ev, ev ∈ closed
               ↔ ∃ k e, pools (this w) !! k = Some e
                        ∧ now - lastUsed e > 300000
                        ∧ ev = Close (connection e))
  ∧ (∀ cfg e env, pools (this w) !! poolKeyOf cfg = Some e →
       120000 ≤ now - lastUsed e ≤ 300000 →
       pools (this (cleanup now w)) !! poolKeyOf cfg = Some e
       ∧ getConnection now env cfg (cleanup now w)
         = connectFresh env cfg (evicted cfg e (cleanup now w))).
Proof.
  split_and!.
  - intros k e. apply cleanup_pool_lookup.
  - eexists. split; [reflexivity|].
    intros ev. rewrite list_elem_of_fmap. split.
    + intros [[k e] [-> Hin]]. apply elem_of_map_to_list in Hin.
      apply map_lookup_filter_Some in Hin as [Hk Hexp].
      exists k, e. by split_and!.
    + intros (k & e & Hk & Hexp & ->). exists (k, e). split; [done|].
      apply elem_of_map_to_list. apply map_lookup_filter_Some. by split.
  - intros cfg e env He [Hidle Hhard].
    assert (pools (this (cleanup now w)) !! poolKeyOf cfg = Some e) as Hkept
      by (apply cleanup_pool_lookup; by split).
    split; [done|].
    unfold getConnection. rewrite Hkept.
    by rewrite (proj2 (Z.ltb_ge _ _)).
Qed.
End pool_lifecycle.

Section pool_connect.
Import ConnectionPool.

(** X4.  For a router without a pooled session whose connect succeeds,
    [getConnection] returns the new connection, and a second call less
    than 120 s after the connect returns the same connection with a single
    connect in the log and a use count of 2. *)
Theorem getConnection_connect_once (now : Z) (env : ConnectEnv)
  (cfg : RouterConfig) (w : World) :
  pools (this w) !! poolKeyOf cfg = None →
  connect_error env = None →
  (getConnection now env cfg w).1 = Some (fresh w)
  ∧ ∀ now2 env2, now2 - now_connected env < 120000 →
      (getConnection now2 env2 cfg (getConnection now env cfg w).2).1
      = Some (fresh w)
      ∧ log (getConnection now2 env2 cfg (getConnection now env cfg w).2).2
        = log w ++ [Connect (fresh w) (ip cfg)]
      ∧ useCount <$> (pools (this (getConnection now2 env2 cfg
                                     (getConnection now env cfg w).2).2)
                        !! poolKeyOf cfg) = Some 2.
Proof.
  intros Hnone Hok.
  assert (getConnection now env cfg w
          = (Some (fresh w),
             with_pools {| this := this w;
                           log := log w ++ [Connect (fresh w) (ip cfg)];
                           fresh := S (fresh w) |}
               (<[poolKeyOf cfg := {| connection := fresh w;
                                      lastUsed := now_connected env;
                                      useCount := 1; config := cfg |}]>
                  (pools (this w))))) as ->.
  { unfold getConnection, connectFresh. by rewrite Hnone, Hok. }
  simpl. split; [done|].
  intros now2 env2 Hlt. unfold getConnection. simpl.
  rewrite lookup_insert_eq. simpl.
  rewrite (proj2 (Z.ltb_lt _ _)) by done. simpl.
  by rewrite lookup_insert_eq.
Qed.

Lemma getConnection_connect_once_witness :
  (getConnection 500000 reachable router1 cold_world).1 = Some 0%nat
  ∧ (getConnection 500200 unreachable router1
       (getConnection 500000 reachable router1 cold_world).2).1 = Some 0%nat.
Proof.
  destruct (getConnection_connect_once 500000 reachable router1 cold_world)
    as [H1 H2]; [by vm_compute|done|].
  split; [exact H1|]. apply (H2 500200 unreachable). simpl. lia.
Defined.

(** X5.  A failed connect returns [null] and leaves the pool and the cache
    exactly as they were: nothing remembers the failure, so the next
    [getConnection] for the router tries to connect again at once. *)
Theorem getConnection_failure_not_remembered (now : Z) (env : ConnectEnv)
  (cfg : RouterConfig) (w : World) (message : string) :
  pools (this w) !! poolKeyOf cfg = None →
  connect_error env = Some message →
  (getConnection now env cfg w).1 = None
  ∧ this (getConnection now env cfg w).2 = this w
  ∧ ∀ now2 env2,
      getConnection now2 env2 cfg (getConnection now env cfg w).2
      = connectFresh env2 cfg (getConnection now env cfg w).2
      ∧ log (getConnection now2 env2 cfg (getConnection now env cfg w).2).2
        = log w ++ [Connect (fresh w) (ip cfg); Connect (S (fresh w)) (ip cfg)].
Proof.
  intros Hnone Hfail.
  assert (getConnection now env cfg w
          = (None, {| this := this w;
                      log := log w ++ [Connect (fresh w) (ip cfg)];
                      fresh := S (fresh w) |})) as ->.
  { unfold getConnection, connectFresh. by rewrite Hnone, Hfail. }
  simpl. split_and!; try done.
  intros now2 env2. unfold getConnection. simpl. rewrite Hnone.
  split; [done|]. unfold connectFresh. simpl.
  destruct (connect_error env2); simpl; by rewrite <-app_assoc.
Qed.

Lemma getConnection_failure_not_remembered_witness :
  (getConnection 1000 unreachable router1 cold_world).1 = None
  ∧ this (getConnection 1000 unreachable router1 cold_world).2 = this cold_world.
Proof.
  destruct (getConnection_failure_not_remembered 1000 unreachable router1
              cold_world "connect ETIMEDOUT") as (H1 & H2 & _);
    [by vm_compute|done|].
  split; [exact H1|exact H2].
Defined.

(** X6.  [closeAll] closes the connection of every pooled session once and
    empties the pool; the cache keeps its entries, so [getStats] then
    reports no connection and the same number of cached entries, and every
    later [getConnection] connects anew. *)
Theorem closeAll_empties_pool (w : World) :
  pools (this (closeAll w)) = ∅
  ∧ cacheData (this (closeAll w)) = cacheData (this w)
  ∧ getStats (this (closeAll w)) = (0%nat, size (cacheData (this w)))
  ∧ (∃ closed,
       log (closeAll w) = log w ++ closed
       ∧ length closed = size (pools (this w))
       ∧ ∀ ev, ev ∈ closed
               ↔ ∃ k e, pools (this w) !! k = Some e ∧ ev = Close (connection e))
  ∧ (∀ now env cfg,
       getConnection now env cfg (closeAll w) = connectFresh env cfg (closeAll w)).
Proof.
  unfold closeAll, getStats. simpl. split_and!.
  - done.
  - done.
  - done.
  - eexists. split; [reflexivity|]. split.
    + by rewrite length_fmap, length_map_to_list.
    + intros ev. rewrite list_elem_of_fmap. split.
      * intros [[k e] [-> Hin]]. apply elem_of_map_to_list in Hin. by exists k, e.
      * intros (k & e & Hk & ->). exists (k, e). split; [done|].
        by apply elem_of_map_to_list.
  - intros now env cfg. unfold getConnection. simpl. by rewrite lookup_empty.
Qed.
End pool_connect.

Section cache_cleanup.
Import ConnectionPool.

(** X7.  With the freshness windows of the constructor, a [cleanup] pass
    changes no answer of [getFromCache] at or after the time of the pass:
    what it removes (entries older than 30 s) is older than every window. *)
Theorem cleanup_invisible_to_readers (now t id : Z) (category : string) (w : World) :
  cacheTimeouts (this w) = cacheTimeouts new →
  now ≤ t →
  getFromCache t (this (cleanup now w)) id category
  = getFromCache t (this w) id category.
Proof.
  intros Hp Ht. unfold getFromCache.
  assert (timeoutOf (this (cleanup now w)) category = ttl category) as ->
    by (by apply timeoutOf_new).
  rewrite (timeoutOf_new _ _ Hp).
  pose proof (ttl_bound category).
  destruct (cacheData (this w) !! getCacheKey id category) as [e|] eqn:He.
  - destruct (decide (now - timestamp e ≤ 30000)) as [Hage|Hage].
    + assert (cacheData (this (cleanup now w)) !! getCacheKey id category = Some e)
        as -> by (apply cleanup_cache_lookup; by split).
      done.
    + assert (cacheData (this (cleanup now w)) !! getCacheKey id category = None) as ->.
      { apply eq_None_not_Some. intros [e' He'].
        apply cleanup_cache_lookup in He' as [He' ?].
        rewrite He in He'. injection He' as <-. lia. }
      by rewrite (proj2 (Z.ltb_ge _ _)) by lia.
  - assert (cacheData (this (cleanup now w)) !! getCacheKey id category = None) as ->.
    { apply eq_None_not_Some. intros [e' He'].
      apply cleanup_cache_lookup in He' as [He' ?]. congruence. }
    done.
Qed.

Lemma cleanup_invisible_to_readers_witness :
  getFromCache 40000 (this (cleanup 40000 stale_cache)) 1 "overview"
  = getFromCache 40000 (this stale_cache) 1 "overview".
Proof.
  apply (cleanup_invisible_to_readers 40000 40000 1 "overview" stale_cache);
    [done|lia].
Defined.
End cache_cleanup.

(** ** The rate engine on a key *)

Section rates_per_key.

Lemma round_rate_nonneg delta ms : 0 ≤ delta → 0 < ms → 0 ≤ round_rate delta ms.
Proof. intros. unfold round_rate. apply Z.div_pos; lia. Qed.

Lemma counterDiff_nonneg current last : 0 ≤ current → 0 ≤ counterDiff current last.
Proof. intros. unfold counterDiff. case_match; lia. Qed.

(** X8.  In both servers [calculateRates] reads and writes the sample of
    its own router and interface only; an unseen key gets the current
    counters and time; the time of a stored sample never decreases, and the
    sample is replaced only when at least 1.5 s (2 s in the legacy server)
    have passed since it was taken. *)
Theorem calculateRates_touches_own_key (now routerId : Z) (iface : string)
  (rx tx : Z) (th : gmap string Sample) :
  (∀ k, k ≠ historyKey routerId iface →
        (Server.calculateRates now routerId iface rx tx th).2 !! k = th !! k
        ∧ (Legacy.calculateRates now routerId iface rx tx th).2 !! k = th !! k)
  ∧ (th !! historyKey routerId iface = None →
       (Server.calculateRates now routerId iface rx tx th).2
         !! historyKey routerId iface = Some (seed_of now rx tx)
       ∧ (Legacy.calculateRates now routerId iface rx tx th).2
           !! historyKey routerId iface = Some (seed_of now rx tx))
  ∧ (∀ h, th !! historyKey routerId iface = Some h →
       (∃ h', (Server.calculateRates now routerId iface rx tx th).2
                !! historyKey routerId iface = Some h'
              ∧ lastTime h ≤ lastTime h'
              ∧ (h' = h ∨ h' = seed_of now rx tx ∧ lastTime h + 1500 ≤ now))
       ∧ (∃ h', (Legacy.calculateRates now routerId iface rx tx th).2
                  !! historyKey routerId iface = Some h'
                ∧ lastTime h ≤ lastTime h'
                ∧ (h' = h ∨ h' = seed_of now rx tx ∧ lastTime h + 2000 ≤ now))).
Proof.
  split_and!.
  - intros k Hk.
    destruct (th !! historyKey routerId iface) as [h|] eqn:Hh.
    + rewrite (Server_calculateRates_stored _ _ _ _ _ _ _ Hh),
        (Legacy_calculateRates_stored _ _ _ _ _ _ _ Hh). cbv zeta.
      split; repeat case_match; simpl; by rewrite ?lookup_insert_ne.
    + rewrite (Server_calculateRates_unseen _ _ _ _ _ _ Hh),
        (Legacy_calculateRates_unseen _ _ _ _ _ _ Hh). simpl.
      by rewrite lookup_insert_ne.
  - intros Hh.
    rewrite (Server_calculateRates_unseen _ _ _ _ _ _ Hh),
      (Legacy_calculateRates_unseen _ _ _ _ _ _ Hh). simpl.
    by rewrite lookup_insert_eq.
  - intros h Hh.
    rewrite (Server_calculateRates_stored _ _ _ _ _ _ _ Hh),
      (Legacy_calculateRates_stored _ _ _ _ _ _ _ Hh). cbv zeta. split.
    + destruct (Z.leb_spec 1500 (now - lastTime h)).
      * exists (seed_of now rx tx). simpl. rewrite lookup_insert_eq.
        split_and!; [done|lia|right; split; [done|lia]].
      * exists h. repeat case_match; simpl; split_and!; auto; lia.
    + destruct (Z.leb_spec 2000 (now - lastTime h)).
      * exists (seed_of now rx tx). simpl. rewrite lookup_insert_eq.
        split_and!; [done|lia|right; split; [done|lia]].
      * exists h. simpl; split_and!; auto; lia.
Qed.



(** X10.  The two servers compute the same rates and the same new history
    for an unseen key and for a sample at least 2 s old.  For a sample
    between 1.5 s and 2 s old they differ: the optimised server computes a
    rate and replaces the sample, the legacy server returns zero rates and
    keeps it. *)
Theorem calculateRates_same_in_both_servers (now routerId : Z) (iface : string)
  (rx tx : Z) (th : gmap string Sample) :
  (th !! historyKey routerId iface = None →
     Server.calculateRates now routerId iface rx tx th
     = Legacy.calculateRates now routerId iface rx tx th)
  ∧ (∀ h, th !! historyKey routerId iface = Some h →
       (2000 ≤ now - lastTime h →
          Server.calculateRates now routerId iface rx tx th
          = Legacy.calculateRates now routerId iface rx tx th)
       ∧ (1500 ≤ now - lastTime h < 2000 →
          (Server.calculateRates now routerId iface rx tx th).2
            !! historyKey routerId iface = Some (seed_of now rx tx)
          ∧ Legacy.calculateRates now routerId iface rx tx th
            = ({| rxRate := Js.of_Z 0; txRate := Js.of_Z 0 |}, th))).
Proof.
  split.
  - intros Hh. by rewrite (Server_calculateRates_unseen _ _ _ _ _ _ Hh),
      (Legacy_calculateRates_unseen _ _ _ _ _ _ Hh).
  - intros h Hh.
    rewrite (Server_calculateRates_stored _ _ _ _ _ _ _ Hh),
      (Legacy_calculateRates_stored _ _ _ _ _ _ _ Hh). cbv zeta. split.
    + intros Hms. by rewrite !(proj2 (Z.leb_le _ _)) by lia.
    + intros [Hlo Hhi]. rewrite (proj2 (Z.leb_le 1500 _)) by lia.
      rewrite (proj2 (Z.leb_gt 2000 _)) by lia. simpl.
      by rewrite lookup_insert_eq.
Qed.

(** X11.  When the clock has not gone back behind the stored sample and the
    counters are not negative, both rates of the optimised server are
    non-negative integers on every path, the unclamped too-soon path
    included. *)
Theorem calculateRates_never_negative (now routerId : Z) (iface : string)
  (rx tx : Z) (th : gmap string Sample) :
  (∀ h, th !! historyKey routerId iface = Some h → lastTime h ≤ now) →
  0 ≤ rx → 0 ≤ tx →
  ∃ r t : Z,
    (Server.calculateRates now routerId iface rx tx th).1
    = {| rxRate := Js.of_Z r; txRate := Js.of_Z t |}
    ∧ 0 ≤ r ∧ 0 ≤ t.
Proof.
  intros Hclock Hrx Htx.
  destruct (th !! historyKey routerId iface) as [h|] eqn:Hh.
  - specialize (Hclock h eq_refl).
    pose proof (counterDiff_nonneg rx (lastRx h) Hrx).
    pose proof (counterDiff_nonneg tx (lastTx h) Htx).
    rewrite (Server_calculateRates_stored _ _ _ _ _ _ _ Hh). cbv zeta.
    destruct (Z.leb_spec 1500 (now - lastTime h)).
    + do 2 eexists. split; [reflexivity|]. lia.
    + destruct (Z.eqb_spec (now - lastTime h) 0).
      * do 2 eexists. split; [reflexivity|]. lia.
      * do 2 eexists. split; [reflexivity|].
        split; apply round_rate_nonneg; lia.
  - rewrite (Server_calculateRates_unseen _ _ _ _ _ _ Hh).
    exists 0, 0. by split.
Qed.

Lemma calculateRates_never_negative_witness :
  ∃ r t : Z,
    (Server.calculateRates 1000 1 "ether1" 500 0 seeded).1
    = {| rxRate := Js.of_Z r; txRate := Js.of_Z t |}
    ∧ 0 ≤ r ∧ 0 ≤ t.
Proof.
  apply (calculateRates_never_negative 1000 1 "ether1" 500 0 seeded); [|lia|lia].
  intros h Hh. vm_compute in Hh. injection Hh as <-. simpl. lia.
Defined.

End rates_per_key.

(** ** Bandwidth limits as text *)

Section bandwidth_text.
Import Text.

Lemma is_digit_pretty_N_char d :
  (d < 10)%N →
  is_digit (pretty_N_char d) = true ∧ digit_of (pretty_N_char d) = Z.of_N d.
Proof.
  intros Hd.
  assert (d = 0 ∨ d = 1 ∨ d = 2 ∨ d = 3 ∨ d = 4 ∨ d = 5 ∨ d = 6 ∨ d = 7
          ∨ d = 8 ∨ d = 9)%N as Hcases by lia.
  repeat (destruct Hcases as [->|Hcases]; [by vm_compute|]). by subst.
Qed.

Lemma pretty_N_go_app x s t : pretty_N_go x s +:+ t = pretty_N_go x (s +:+ t).
Proof.
  revert s. induction (N.lt_wf_0 x) as [x _ IH]; intros s.
  destruct (decide (x = 0)%N) as [->|Hx].
  - by rewrite !pretty_N_go_0.
  - rewrite (pretty_N_go_step x s), (pretty_N_go_step x (s +:+ t)) by lia.
    rewrite IH; [done|]. apply N.div_lt; lia.
Qed.

(** Reading back the digits that [pretty] wrote. *)
Lemma digits_prefix_pretty_N_go x :
  ∃ n : Z, 0 ≤ n ∧ ∀ s acc,
    fold_left (λ acc d, acc * 10 + d) (digits_prefix (pretty_N_go x s)).1 acc
    = fold_left (λ acc d, acc * 10 + d) (digits_prefix s).1 (acc * 10 ^ n + Z.of_N x)
    ∧ (digits_prefix (pretty_N_go x s)).2 = (digits_prefix s).2.
Proof.
  induction (N.lt_wf_0 x) as [x _ IH].
  destruct (decide (x = 0)%N) as [->|Hx].
  - exists 0. split; [done|]. intros s acc. rewrite pretty_N_go_0. split; [|done].
    f_equal. lia.
  - destruct (IH (x `div` 10)%N) as (n & Hn & IHn); [apply N.div_lt; lia|].
    exists (n + 1). split; [lia|]. intros s acc.
    rewrite pretty_N_go_step by lia.
    destruct (IHn (String (pretty_N_char (x `mod` 10)) s) acc) as [-> ->].
    destruct (is_digit_pretty_N_char (x `mod` 10)%N) as [Hd Hv];
      [by apply N.mod_lt|].
    simpl. rewrite Hd. destruct (digits_prefix s) as [ds tail]. simpl.
    split; [|done]. f_equal. rewrite Hv, Z.pow_add_r by lia.
    rewrite (N.div_mod x 10) at 3 by done.
    rewrite N2Z.inj_add, N2Z.inj_mul. simpl. lia.
Qed.

Lemma pretty_N_go_starts_with_digit x s :
  (0 < x)%N → ∃ c rest, pretty_N_go x s = String c rest ∧ is_digit c = true.
Proof.
  revert s. induction (N.lt_wf_0 x) as [x _ IH]; intros s Hx.
  rewrite pretty_N_go_step by done.
  destruct (decide (x `div` 10 = 0)%N) as [->|Hq].
  - rewrite pretty_N_go_0. do 2 eexists. split; [done|].
    by apply is_digit_pretty_N_char, N.mod_lt.
  - apply IH; [apply N.div_lt; lia | apply N.neq_0_lt_0; done].
Qed.

(** A natural number written in decimal and followed by something that is
    not a digit: the digits read back are the number. *)
Lemma digits_prefix_pretty (n : N) (rest : string) :
  (∀ c r, rest = String c r → is_digit c = false) →
  decimal (digits_prefix (pretty n +:+ rest)).1 = Z.of_N n
  ∧ (digits_prefix (pretty n +:+ rest)).2 = rest
  ∧ seek_digit (pretty n +:+ rest) = pretty n +:+ rest.
Proof.
  intros Hrest.
  assert (digits_prefix rest = ([], rest)) as Hdp.
  { destruct rest as [|c r]; [done|]. simpl. by rewrite (Hrest c r). }
  unfold pretty, pretty_N. case_decide as Hn.
  - subst n. change ("0" +:+ rest) with (String "0" rest). simpl.
    by rewrite Hdp.
  - rewrite pretty_N_go_app. change ("" +:+ rest) with rest.
    destruct (digits_prefix_pretty_N_go n) as (k & Hk & Hread).
    destruct (Hread rest 0) as [Hval Htail].
    unfold decimal. rewrite Hval, Htail, Hdp. simpl. split_and!; [lia|done|].
    destruct (pretty_N_go_starts_with_digit n rest) as (c & r & -> & Hc); [lia|].
    simpl. by rewrite Hc.
Qed.

Lemma digits_prefix_range s : Forall (λ d, 0 ≤ d ≤ 9) (digits_prefix s).1.
Proof.
  induction s as [|c s IH]; simpl; [constructor|].
  destruct (is_digit c) eqn:Hc; [|constructor].
  destruct (digits_prefix s) as [ds tail]. simpl in *.
  constructor; [|done].
  unfold is_digit in Hc. apply andb_prop in Hc as [H1 H2].
  apply N.leb_le in H1, H2. unfold digit_of. lia.
Qed.

Lemma decimal_nonneg ds : Forall (λ d, 0 ≤ d ≤ 9) ds → 0 ≤ decimal ds.
Proof.
  intros Hds. unfold decimal.
  assert (∀ acc, 0 ≤ acc → 0 ≤ fold_left (λ acc d, acc * 10 + d) ds acc) as H;
    [|by apply H].
  induction Hds as [|d ds Hd _ IH]; intros acc Hacc; simpl; [done|].
  apply IH. lia.
Qed.

Lemma inject_Z_nonneg z : 0 ≤ z → (0 <= inject_Z z)%Q.
Proof. intros. unfold Qle. simpl. lia. Qed.

Lemma inject_Z_pos z : 0 < z → (0 < inject_Z z)%Q.
Proof. intros. unfold Qlt. simpl. lia. Qed.

Lemma multiplier_pos u : 0 < Server.multiplier u.
Proof. unfold Server.multiplier. repeat case_match; lia. Qed.

Lemma seek_digit_skip c s : is_digit c = false → seek_digit (String c s) = seek_digit s.
Proof. intros Hc. simpl. by rewrite Hc. Qed.

(** X12.  [parseBandwidth] returns 0 for [undefined], for the empty string
    and for a string without a digit; the characters in front of the first
    digit, a sign among them, are skipped; the result is never negative. *)
Theorem parseBandwidth_edge_cases :
  Server.parseBandwidth None = 0%Q
  ∧ Server.parseBandwidth (Some "") = 0%Q
  ∧ (∀ s, seek_digit s = "" → Server.parseBandwidth (Some s) = 0%Q)
  ∧ (∀ c s, is_digit c = false →
       Server.parseBandwidth (Some (String c s)) = Server.parseBandwidth (Some s))
  ∧ (∀ x, (0 <= Server.parseBandwidth x)%Q).
Proof.
  split_and!; try done.
  - intros s Hs. unfold Server.parseBandwidth. rewrite Hs. simpl. by case_match.
  - intros c s Hc. unfold Server.parseBandwidth.
    rewrite (seek_digit_skip c s Hc). simpl.
    destruct s as [|c' s']; [done|]. done.
  - intros [s|]; [|done]. unfold Server.parseBandwidth.
    case_match; [done|].
    pose proof (digits_prefix_range (seek_digit s)) as Hwhole.
    destruct (digits_prefix (seek_digit s)) as [[|d whole] rest]; [done|].
    simpl in Hwhole. apply decimal_nonneg in Hwhole.
    assert (∃ frac rest', Forall (λ d, 0 ≤ d ≤ 9) frac ∧
              (match rest with
               | String "." after => digits_prefix after
               | _ => ([], rest)
               end) = (frac, rest')) as (frac & rest' & Hfrac & ->).
    { destruct rest as [|c after].
      - by exists [], "".
      - destruct (Ascii.eqb_spec c ".") as [->|Hne].
        + pose proof (digits_prefix_range after).
          destruct (digits_prefix after) as [frac rest']. by exists frac, rest'.
        + exists [], (String c after). split; [constructor|].
          destruct c as [[] [] [] [] [] [] [] []]; try done. }
    apply decimal_nonneg in Hfrac.
    apply Qmult_le_0_compat.
    + apply Qle_trans with (inject_Z (decimal (d :: whole)) + 0)%Q.
      * rewrite Qplus_0_r. by apply inject_Z_nonneg.
      * apply Qplus_le_r. apply Qle_shift_div_l.
        -- apply inject_Z_pos. apply Z.pow_pos_nonneg; lia.
        -- rewrite Qmult_0_l. by apply inject_Z_nonneg.
    + apply inject_Z_nonneg.
      pose proof (multiplier_pos (Server.unit_of rest')). lia.
Qed.

(** X13.  A natural number in decimal followed by a unit letter is read as
    the number times 1000, 1000000 or 1000000000 by both servers, and as
    the number itself without a unit letter.  The servers differ on a
    fraction: ["1.5M"] is 1500000 for the optimised server and 1 for the
    legacy one. *)
Theorem parseBandwidth_number_and_unit (n : N) (rest : string) :
  (∀ c r, rest = String c r → is_digit c = false) →
  (Legacy.parseBandwidth (Some (pretty n +:+ rest))
   == inject_Z (Z.of_N n * Server.multiplier (Server.unit_of rest)))%Q
  ∧ ((∀ r, rest ≠ String "." r) →
     (Server.parseBandwidth (Some (pretty n +:+ rest))
      == inject_Z (Z.of_N n * Server.multiplier (Server.unit_of rest)))%Q)
  ∧ (Server.parseBandwidth (Some "1.5M") == 1500000)%Q
  ∧ (Legacy.parseBandwidth (Some "1.5M") == 1)%Q.
Proof.
  intros Hrest.
  destruct (digits_prefix_pretty n rest Hrest) as (Hval & Htail & Hseek).
  assert (String.eqb (pretty n +:+ rest) "" = false) as Hne.
  { pose proof (digits_prefix_range (pretty n +:+ rest)) as _.
    destruct (pretty n +:+ rest) as [|c r] eqn:Hs; [|done].
    exfalso. unfold pretty, pretty_N in Hs. case_decide.
    - discriminate.
    - destruct (pretty_N_go_starts_with_digit n "") as (c & r & Hc & _);
        [by apply N.neq_0_lt_0|].
      rewrite Hc in Hs. discriminate. }
  split_and!; [| |done|done].
  - unfold Legacy.parseBandwidth. rewrite Hne, Hseek.
    destruct (digits_prefix (pretty n +:+ rest)) as [whole tail]. simpl in *.
    subst tail. destruct whole as [|d whole].
    + rewrite <-Hval. by vm_compute.
    + rewrite Hval. by rewrite inject_Z_mult.
  - intros Hdot. unfold Server.parseBandwidth. rewrite Hne, Hseek.
    destruct (digits_prefix (pretty n +:+ rest)) as [whole tail]. simpl in *.
    subst tail. destruct whole as [|d whole].
    + rewrite <-Hval. by vm_compute.
    + assert ((match rest with
               | String "." after => digits_prefix after
               | _ => ([], rest)
               end) = ([], rest)) as ->.
      { destruct rest as [|c after]; [done|].
        destruct (Ascii.eqb_spec c ".") as [->|Hc]; [by destruct (Hdot after)|].
        destruct c as [[] [] [] [] [] [] [] []]; try done. }
      rewrite Hval. change (Text.decimal []) with 0.
      change (10 ^ Z.of_nat (length (@nil Z))) with 1.
      rewrite inject_Z_mult. field.
Qed.

Lemma parseBandwidth_number_and_unit_witness :
  (Legacy.parseBandwidth (Some "10M") == 10000000)%Q
  ∧ (Server.parseBandwidth (Some "10M") == 10000000)%Q.
Proof.
  destruct (parseBandwidth_number_and_unit 10 "M") as (H1 & H2 & _).
  { by intros c r [= <- <-]. }
  split; [exact H1|]. apply H2. by intros r.
Defined.

End bandwidth_text.

(** ** The sub-queries of the overview *)

Section subqueries.
Import ConnectionPool Server.




(** X15.  [getRouterResources] asks the device exactly once on a cache
    miss.  A result with a row is cached and returned again, without a
    query, to a call less than 3 s later; an empty reply or a failed query
    gives [null] and caches nothing. *)
Theorem getRouterResources_caching (env env' : DeviceEnv) (conn conn' : Conn)
  (cfg : RouterConfig) (w : World) :
  cacheTimeouts (this w) = cacheTimeouts new →
  Js.truthy (getFromCache (t_queries env) (this w) (id cfg) "resources") = false →
  ((∃ r0 rows, resource_print env = Rows (r0 :: rows)) →
     t_queries env' - t_resources env < 3000 →
     getRouterResources env' conn' cfg (getRouterResources env conn cfg w).2
     = getRouterResources env conn cfg w)
  ∧ ((resource_print env = Rows [] ∨ ∃ m, resource_print env = Throws m) →
     getRouterResources env conn cfg w
     = (Js.Null, emit w (Write conn "/system/resource/print" [])))
  ∧ log (getRouterResources env conn cfg w).2
    = log w ++ [Write conn "/system/resource/print" []].
Proof.
  intros Hp Hmiss. unfold getRouterResources at 2 3 4 5. rewrite Hmiss. split_and!.
  - intros (r0 & rows & ->) Hfresh. simpl.
    unfold getRouterResources. simpl.
    rewrite getFromCache_setCache_same, (timeoutOf_new _ _ Hp).
    change (ttl "resources") with 3000.
    by rewrite (proj2 (Z.ltb_lt _ _)) by done.
  - by intros [->|[m ->]].
  - by destruct (resource_print env) as [[|r0 rows]|m].
Qed.

Lemma getRouterResources_caching_witness :
  getRouterResources device_up 1%nat router1
    (getRouterResources device_up 0%nat router1 cold_world).2
  = getRouterResources device_up 0%nat router1 cold_world.
Proof.
  destruct (getRouterResources_caching device_up device_up 0%nat 1%nat router1
              cold_world) as (H & _); [done|by vm_compute|].
  apply H; [by eexists _, _|simpl; lia].
Defined.

(** X16.  When either count query of [getQueueStatsLight] fails the result
    is all zeros and nothing is cached.  Otherwise [total] is the number
    of rows of the first reply and [active] that of the second (or [total]
    when the second is empty), and the result is served from the cache for
    5 s, the default window of a category without one of its own. *)
Theorem getQueueStatsLight_caching (env env' : DeviceEnv) (conn conn' : Conn)
  (cfg : RouterConfig) (w : World) :
  cacheTimeouts (this w) = cacheTimeouts new →
  Js.truthy (getFromCache (t_queries env) (this w) (id cfg) "queues_light") = false →
  (((∃ m, queue_count env = Throws m) ∨ (∃ m, queue_active_count env = Throws m)) →
     (getQueueStatsLight env conn cfg w).1 = queue_counts 0 0
     ∧ this (getQueueStatsLight env conn cfg w).2 = this w)
  ∧ (∀ queues actives,
       queue_count env = Rows queues → queue_active_count env = Rows actives →
       (∃ total active,
          (getQueueStatsLight env conn cfg w).1
          = Js.Obj [("total", num total); ("active", num active);
                    ("disabled", num (total - active))]
          ∧ total = Z.of_nat (length queues)
          ∧ active = (if actives is [] then total else Z.of_nat (length actives)))
       ∧ (t_queries env' - t_queues env < 5000 →
          getQueueStatsLight env' conn' cfg (getQueueStatsLight env conn cfg w).2
          = getQueueStatsLight env conn cfg w)).
Proof.
  intros Hp Hmiss. unfold getQueueStatsLight at 1 2 3 5 6. rewrite Hmiss. split.
  - intros [[m Hm]|[m Hm]].
    + by rewrite Hm.
    + rewrite Hm. by destruct (queue_count env).
  - intros queues actives -> ->. simpl. split.
    + do 2 eexists. split; [reflexivity|]. split.
      * by destruct queues.
      * by destruct actives.
    + intros Hfresh. unfold getQueueStatsLight. simpl.
      rewrite getFromCache_setCache_same, (timeoutOf_new _ _ Hp).
      change (ttl "queues_light") with 5000.
      by rewrite (proj2 (Z.ltb_lt _ _)) by done.
Qed.

Lemma getQueueStatsLight_caching_witness :
  getQueueStatsLight device_up 1%nat router1
    (getQueueStatsLight device_up 0%nat router1 cold_world).2
  = getQueueStatsLight device_up 0%nat router1 cold_world.
Proof.
  destruct (getQueueStatsLight_caching device_up device_up 0%nat 1%nat router1
              cold_world) as (_ & H); [done|by vm_compute|].
  apply (H [∅] [∅]); [done|done|simpl; lia].
Defined.

End subqueries.

(** ** The overview of one device *)

Section overview_branch.
Import ConnectionPool Server.

(** The sub-queries of the overview leave the pool of sessions alone. *)
Lemma subqueries_keep_pools env conn cfg w :
  pools (this (getRouterResources env conn cfg w).2) = pools (this w)
  ∧ pools (this (getActiveUsers env conn cfg w).2) = pools (this w)
  ∧ pools (this (getQueueStatsLight env conn cfg w).2) = pools (this w).
Proof.
  unfold getRouterResources, getActiveUsers, getQueueStatsLight. split_and!.
  - case_match; [done|]. by destruct (resource_print env) as [[|??]|?].
  - by destruct (interface_print env).
  - case_match; [done|]. destruct (queue_count env); [|done].
    by destruct (queue_active_count env).
Qed.

Lemma getConnection_entry now env cfg w conn w1 :
  getConnection now env cfg w = (Some conn, w1) →
  ∃ e, pools (this w1) !! poolKeyOf cfg = Some e ∧ connection e = conn.
Proof.
  unfold getConnection, connectFresh.
  destruct (pools (this w) !! poolKeyOf cfg) as [e|].
  - case_match.
    + intros [= <- <-]. simpl. rewrite lookup_insert_eq. by eexists.
    + destruct (connect_error env); [done|]. intros [= <- <-]. simpl.
      rewrite lookup_insert_eq. by eexists.
  - destruct (connect_error env); [done|]. intros [= <- <-]. simpl.
    rewrite lookup_insert_eq. by eexists.
Qed.

(** The shape of a branch that had to ask the device. *)
Lemma overviewOf_acquired env cfg w conn w1 :
  Js.truthy (getFromCache (t_start env) (this w) (id cfg) "overview") = false →
  getConnection (t_start env) (conn_env env) cfg w = (Some conn, w1) →
  ∃ resources users queues w4,
    (overviewOf env cfg w).1 = merged_snapshot cfg resources users queues
    ∧ (overviewOf env cfg w).2
      = with_this (releaseConnection (t_merge env) cfg w4)
          (setCache (t_merge env) (this (releaseConnection (t_merge env) cfg w4))
             (id cfg) "overview" (merged_snapshot cfg resources users queues))
    ∧ pools (this w4) = pools (this w1)
    ∧ cacheTimeouts (this w4) = cacheTimeouts (this w).
Proof.
  intros Hmiss Hconn. unfold overviewOf. rewrite Hmiss, Hconn.
  destruct (subqueries_keep_pools env conn cfg w1) as (P1 & _ & _).
  pose proof (touches_getRouterResources cfg env conn w1) as (T1 & _ & _).
  destruct (getRouterResources env conn cfg w1) as [resources w2].
  destruct (subqueries_keep_pools env conn cfg w2) as (_ & P2 & _).
  pose proof (touches_getActiveUsers cfg env conn w2) as (T2 & _ & _).
  destruct (getActiveUsers env conn cfg w2) as [users w3].
  destruct (subqueries_keep_pools env conn cfg w3) as (_ & _ & P3).
  pose proof (touches_getQueueStatsLight cfg env conn w3) as (T3 & _ & _).
  destruct (getQueueStatsLight env conn cfg w3) as [queues w4].
  pose proof (getConnection_cache (t_start env) (conn_env env) cfg w) as [T0 _].
  rewrite Hconn in T0. simpl in *.
  exists resources, users, queues, w4. split_and!; try done; congruence.
Qed.

(** X17.  A device whose branch of the overview obtained a session is
    answered from the cache for 3 s: a second branch started less than 3 s
    after the first stored its snapshot returns that snapshot and changes
    nothing, whatever the device would do. *)
Theorem overview_repeat_served_from_cache (env env' : DeviceEnv)
  (cfg : RouterConfig) (w : World) (conn : Conn) (w1 : World) :
  cacheTimeouts (this w) = cacheTimeouts new →
  Js.truthy (getFromCache (t_start env) (this w) (id cfg) "overview") = false →
  getConnection (t_start env) (conn_env env) cfg w = (Some conn, w1) →
  t_start env' - t_merge env < 3000 →
  overviewOf env' cfg (overviewOf env cfg w).2 = overviewOf env cfg w.
Proof.
  intros Hp Hmiss Hconn Hfresh.
  destruct (overviewOf_acquired env cfg w conn w1 Hmiss Hconn)
    as (resources & users & queues & w4 & Hr & Hw & _ & HT).
  destruct (overviewOf env cfg w) as [r w'] eqn:Hov. simpl in *. subst r w'.
  unfold overviewOf at 1. simpl.
  rewrite getFromCache_setCache_same.
  rewrite timeoutOf_new.
  2: { destruct (cacheTimeouts_unchanged (t_merge env) (conn_env env) cfg w4
                   0 "" Js.Null) as (_ & _ & Hrel & _).
       by rewrite Hrel, HT. }
  change (ttl "overview") with 3000.
  by rewrite (proj2 (Z.ltb_lt _ _)) by done.
Qed.

Lemma overview_repeat_served_from_cache_witness :
  overviewOf device_up router1 (overviewOf device_up router1 cold_world).2
  = overviewOf device_up router1 cold_world.
Proof.
  apply (overview_repeat_served_from_cache device_up device_up router1
           cold_world 0%nat (getConnection 1000 reachable router1 cold_world).2);
    [done|by vm_compute|by vm_compute|simpl; lia].
Defined.

(** X18.  A branch of the overview that obtained a session leaves it in the
    pool: same connection, last use at the time of the release, and the
    use count that [getConnection] gave it. *)
Theorem overview_keeps_session_pooled (env : DeviceEnv)
  (cfg : RouterConfig) (w : World) (conn : Conn) (w1 : World) :
  Js.truthy (getFromCache (t_start env) (this w) (id cfg) "overview") = false →
  getConnection (t_start env) (conn_env env) cfg w = (Some conn, w1) →
  ∃ e, pools (this (overviewOf env cfg w).2) !! poolKeyOf cfg = Some e
       ∧ connection e = conn
       ∧ lastUsed e = t_merge env
       ∧ useCount <$> (pools (this w1) !! poolKeyOf cfg) = Some (useCount e).
Proof.
  intros Hmiss Hconn.
  destruct (overviewOf_acquired env cfg w conn w1 Hmiss Hconn)
    as (resources & users & queues & w4 & _ & -> & HP & _).
  destruct (getConnection_entry _ _ _ _ _ _ Hconn) as (e & He & Hc).
  simpl. unfold releaseConnection. rewrite HP, He. simpl.
  rewrite lookup_insert_eq. eexists. by split_and!.
Qed.

Lemma overview_keeps_session_pooled_witness :
  ∃ e, pools (this (overviewOf device_up router1 cold_world).2)
         !! poolKeyOf router1 = Some e
       ∧ connection e = 0%nat
       ∧ lastUsed e = 1200
       ∧ useCount <$> (pools (this (getConnection 1000 reachable router1
                                      cold_world).2) !! poolKeyOf router1)
         = Some (useCount e).
Proof.
  apply (overview_keeps_session_pooled device_up router1 cold_world 0%nat
           (getConnection 1000 reachable router1 cold_world).2);
    by vm_compute.
Defined.

(** X19.  The status of the overview depends on the resource query alone:
    with a resource row the snapshot is [online] even when the user query
    or the queue counts fail, and the failed parts show as zeros. *)
Theorem overview_online_with_partial_data (env : DeviceEnv)
  (cfg : RouterConfig) (w : World) (conn : Conn) (w1 : World)
  (r0 : Row) (rows : list Row) :
  Js.truthy (getFromCache (t_start env) (this w) (id cfg) "overview") = false →
  getConnection (t_start env) (conn_env env) cfg w = (Some conn, w1) →
  Js.truthy (getFromCache (t_queries env) (this w) (id cfg) "resources") = false →
  resource_print env = Rows (r0 :: rows) →
  Js.get (overviewOf env cfg w).1 "status" = Js.Str "online"
  ∧ ((∃ m, interface_print env = Throws m) →
     Js.get (overviewOf env cfg w).1 "activeUsers" = num 0)
  ∧ (Js.truthy (getFromCache (t_queries env) (this w) (id cfg) "queues_light") = false →
     ((∃ m, queue_count env = Throws m) ∨ (∃ m, queue_active_count env = Throws m)) →
     Js.get (overviewOf env cfg w).1 "totalQueues" = num 0
     ∧ Js.get (overviewOf env cfg w).1 "activeQueues" = num 0).
Proof.
  intros Hmiss Hconn Hres Hrows. unfold overviewOf. rewrite Hmiss, Hconn.
  pose proof (getConnection_cache (t_start env) (conn_env env) cfg w) as [T D].
  rewrite Hconn in T, D. simpl in T, D.
  assert (∀ t c, getFromCache t (this w1) (id cfg) c
                 = getFromCache t (this w) (id cfg) c) as Hsame
    by (intros t c; unfold getFromCache, timeoutOf; by rewrite T, D).
  unfold getRouterResources. rewrite Hsame, Hres, Hrows. cbv zeta.
  set (resources := Js.Obj _).
  set (w2 := with_this _ _).
  assert (getFromCache (t_queries env) (this w2) (id cfg) "queues_light"
          = getFromCache (t_queries env) (this w) (id cfg) "queues_light") as Hq.
  { subst w2. simpl. rewrite getFromCache_setCache_other by (by intros [= ?]).
    apply Hsame. }
  clearbody w2.
  unfold getActiveUsers, getQueueStatsLight.
  destruct (interface_print env) as [ifs|m0] eqn:Hif; simpl; rewrite Hq;
    destruct (Js.truthy (getFromCache (t_queries env) (this w) (id cfg)
                           "queues_light")) eqn:Hql;
    try (destruct (queue_count env) as [qs|m1] eqn:Hqc;
         [destruct (queue_active_count env) as [acts|m2] eqn:Hqa|]);
    simpl; (split_and!; [done| |]);
    try (intros [m [=]]); try done;
    try (intros _ [[m [=]]|[m [=]]]); try done.
Qed.

Lemma overview_online_with_partial_data_witness :
  Js.get (overviewOf device_up router1 cold_world).1 "status" = Js.Str "online".
Proof.
  destruct (overview_online_with_partial_data device_up router1 cold_world
              0%nat (getConnection 1000 reachable router1 cold_world).2
              resource_row []) as [H _];
    [by vm_compute|by vm_compute|by vm_compute|done|].
  exact H.
Defined.

End overview_branch.

(** ** Bandwidth of one router *)

Section bandwidth.
Import ConnectionPool Server.


Lemma sort_insert_perm compare x l : sort_insert compare x l ≡ₚ x :: l.
Proof.
  induction l as [|y l IH]; simpl; [done|].
  case_match; [|done]. rewrite IH. apply Permutation_swap.
Qed.

Lemma sort_perm compare l : sort compare l ≡ₚ l.
Proof.
  induction l as [|x l IH]; simpl; [done|].
  unfold sort in *. simpl. rewrite sort_insert_perm. by rewrite IH.
Qed.





Lemma bandwidth_loop_threw now routerId interfaces st :
  (bandwidth_loop now routerId interfaces st).1 = true
  ↔ Exists (λ iface : Row, iface !! "name" = None) interfaces.
Proof.
  revert st. induction interfaces as [|iface rest IH]; intros st; simpl.
  - split; [done|]. by intros ?%Exists_nil.
  - rewrite Exists_cons. destruct (iface !! "name") as [name|] eqn:Hname.
    + assert (∀ st', (bandwidth_loop now routerId rest st').1 = true
                     ↔ Some name = None
                       ∨ Exists (λ iface : Row, iface !! "name" = None) rest)
        as Hrest.
      { intros st'. rewrite IH. split; [by right|]. by intros [?|?]. }
      destruct (isVirtual name); [apply Hrest|].
      destruct (negb (isRelevant name (iface !! "type"))); [apply Hrest|].
      destruct (calculateRates _ _ _ _ _ _) as [rates th']. apply Hrest.
    + simpl. split; [by left|done].
Qed.




(** X21.  A row without a name makes [getBandwidthRates] return the zero
    result with an empty list, whatever the other rows hold, and cache
    nothing. *)
Theorem getBandwidthRates_row_without_name (env : BandwidthEnv) (conn : Conn)
  (cfg : RouterConfig) (w : World) (th : gmap string Sample)
  (interfaces : list Row) :
  Js.truthy (getFromCache (b_start env) (this w) (id cfg) "bandwidth") = false →
  running_print env = Rows interfaces →
  Exists (λ iface : Row, iface !! "name" = None) interfaces →
  (getBandwidthRates env conn cfg w th).1.1
  = bandwidth_result (Js.of_Z 0) (Js.of_Z 0) []
  ∧ this (getBandwidthRates env conn cfg w th).1.2 = this w
  ∧ log (getBandwidthRates env conn cfg w th).1.2
    = log w ++ [Write conn "/interface/print" ["?running=true"]].
Proof.
  intros Hmiss Hrows Hnameless. unfold getBandwidthRates.
  rewrite Hmiss, Hrows. cbv zeta.
  apply (bandwidth_loop_threw (b_answered env) (id cfg) interfaces
    {| bandwidthList := []; totalRxRate := Js.of_Z 0;
       totalTxRate := Js.of_Z 0; history := th |}) in Hnameless.
  destruct (bandwidth_loop _ _ _ _) as [[] st]; simpl in *; done.
Qed.

Lemma getBandwidthRates_row_without_name_witness :
  (getBandwidthRates nameless 0%nat router1 cold_world ∅).1.1
  = bandwidth_result (Js.of_Z 0) (Js.of_Z 0) []
  ∧ this (getBandwidthRates nameless 0%nat router1 cold_world ∅).1.2
    = this cold_world.
Proof.
  destruct (getBandwidthRates_row_without_name nameless 0%nat router1
              cold_world ∅ [one_interface; ∅]) as (H1 & H2 & _);
    [by vm_compute|done| |by split].
  apply Exists_cons_tl, Exists_cons_hd. apply lookup_empty.
Defined.




Lemma historyKey_inj routerId name name' :
  historyKey routerId name = historyKey routerId name' → name = name'.
Proof.
  unfold historyKey. intros H.
  by apply underscore_split in H as [_ ?]; auto using template_no_underscore.
Qed.

Lemma bandwidth_loop_first_poll now routerId interfaces st :
  NoDup (relevant_names interfaces) →
  (∀ name, name ∈ relevant_names interfaces →
           history st !! historyKey routerId name = None) →
  Forall (λ x, if_rxRate x = Js.of_Z 0 ∧ if_txRate x = Js.of_Z 0) (bandwidthList st) →
  totalRxRate st = Js.of_Z 0 → totalTxRate st = Js.of_Z 0 →
  let st' := (bandwidth_loop now routerId interfaces st).2 in
  Forall (λ x, if_rxRate x = Js.of_Z 0 ∧ if_txRate x = Js.of_Z 0) (bandwidthList st')
  ∧ totalRxRate st' = Js.of_Z 0 ∧ totalTxRate st' = Js.of_Z 0.
Proof.
  revert st. induction interfaces as [|iface rest IH];
    intros st Hnd Hcold Hzero Hrx Htx; simpl; [done|].
  unfold relevant_names in Hnd, Hcold. simpl in Hnd, Hcold.
  fold (relevant_names rest) in Hnd, Hcold.
  destruct (iface !! "name") as [name|]; [|done].
  destruct (isVirtual name); [by apply IH|].
  destruct (isRelevant name (iface !! "type")); simpl; [|by apply IH].
  simpl in Hnd, Hcold. apply NoDup_cons in Hnd as [Hnotin Hnd].
  rewrite (Server_calculateRates_unseen now routerId name _ _ (history st))
    by (apply Hcold; by left).
  apply IH; simpl.
  - done.
  - intros name' Hin. rewrite lookup_insert_ne.
    + apply Hcold. by right.
    + intros Heq%historyKey_inj. by subst.
  - apply Forall_app. split; [done|]. by repeat constructor.
  - by case_match.
  - by case_match.
Qed.

(** X23.  On the first poll of a router, when no interface of it has a
    stored sample and the names are distinct, every listed rate and both
    totals are 0. *)
Theorem getBandwidthRates_first_poll (env : BandwidthEnv) (conn : Conn)
  (cfg : RouterConfig) (w : World) (th : gmap string Sample)
  (interfaces : list Row) :
  Js.truthy (getFromCache (b_start env) (this w) (id cfg) "bandwidth") = false →
  running_print env = Rows interfaces →
  NoDup (relevant_names interfaces) →
  (∀ name, th !! historyKey (id cfg) name = None) →
  ∃ shown,
    (getBandwidthRates env conn cfg w th).1.1
    = bandwidth_result (Js.of_Z 0) (Js.of_Z 0) shown
    ∧ Forall (λ x, if_rxRate x = Js.of_Z 0 ∧ if_txRate x = Js.of_Z 0) shown.
Proof.
  intros Hmiss Hrows Hnd Hcold. unfold getBandwidthRates.
  rewrite Hmiss, Hrows. cbv zeta.
  set (st0 := {| bandwidthList := []; totalRxRate := Js.of_Z 0;
                 totalTxRate := Js.of_Z 0; history := th |}).
  destruct (bandwidth_loop_first_poll (b_answered env) (id cfg) interfaces st0)
    as (Hzero & Hrx & Htx); [done|by intros|done..|].
  destruct (bandwidth_loop _ _ _ _) as [[] st]; simpl in *.
  - by exists [].
  - rewrite Hrx, Htx. eexists. split; [done|].
    apply Forall_take. by rewrite sort_perm.
Qed.

Lemma getBandwidthRates_first_poll_witness :
  ∃ shown,
    (getBandwidthRates bandwidth_up 0%nat router1 cold_world ∅).1.1
    = bandwidth_result (Js.of_Z 0) (Js.of_Z 0) shown
    ∧ Forall (λ x, if_rxRate x = Js.of_Z 0 ∧ if_txRate x = Js.of_Z 0) shown.
Proof.
  apply (getBandwidthRates_first_poll bandwidth_up 0%nat router1 cold_world ∅
           [one_interface]); [by vm_compute|done| |].
  - vm_compute. apply NoDup_singleton.
  - intros name. apply lookup_empty.
Defined.

End bandwidth.

(** ** The routes *)

Section routes.
Import ConnectionPool Server.


Lemma findRouter_Some routerConfigs params_id config :
  findRouter routerConfigs params_id = Some config →
  config ∈ routerConfigs ∧ Text.parseInt (Some params_id) = Some (id config).
Proof.
  unfold findRouter.
  destruct (Text.parseInt (Some params_id)) as [routerId|]; [|done].
  induction routerConfigs as [|r rest IH]; simpl; [done|].
  destruct (Z.eqb_spec (id r) routerId) as [E|E].
  - intros [= <-]. split; [left|congruence].
  - intros [Hin ?]%IH. split; [by right|done].
Qed.





(** X25.  The detail route of a router whose session was obtained reports
    the status [online] whatever the resource query did; when that query
    failed (or returned no row) the answer simply has no [cpu],
    [memoryUsage] or [uptime] field, where the overview reports the status
    [error] with zero metrics for the same device. *)
Theorem getRouter_online_without_resources (params_id : string)
  (env : DetailEnv) (routerConfigs : list RouterConfig) (p : Process)
  (config : RouterConfig) (conn : Conn) (w1 : World) :
  findRouter routerConfigs params_id = Some config →
  getConnection (t_start (d_device env)) (conn_env (d_device env)) config (world p)
  = (Some conn, w1) →
  Js.truthy (getFromCache (t_queries (d_device env)) (this w1) (id config)
               "resources") = false →
  let answer := (getRouter params_id env routerConfigs p).1 in
  statusCode answer = 200
  ∧ Js.get (body answer) "status" = Js.Str "online"
  ∧ ((resource_print (d_device env) = Rows []
      ∨ ∃ m, resource_print (d_device env) = Throws m) →
     Js.get (body answer) "cpu" = Js.Undefined
     ∧ Js.get (body answer) "memoryUsage" = Js.Undefined
     ∧ Js.get (body answer) "uptime" = Js.Undefined
     ∧ Js.get (body answer) "error" = Js.Undefined).
Proof.
  intros Hf Hconn Hmiss. cbv zeta.
  assert (∃ users queues bandwidth,
    (getRouter params_id env routerConfigs p).1
    = json (Js.Obj (Js.spread
        [("id", num (id config)); ("name", Js.Str (name config));
         ("ip", Js.Str (ip config)); ("status", Js.Str "online");
         ("users", users); ("queues", queues); ("bandwidth", bandwidth)]
        (props_of (getRouterResources (d_device env) conn config w1).1))))
    as (users & queues & bandwidth & ->).
  { unfold getRouter. rewrite Hf, Hconn.
    destruct (getRouterResources _ _ _ _) as [resources w2].
    destruct (getActiveUsers _ _ _ _) as [users w3].
    destruct (getQueueStatsFull _ _ _ _) as [queues w4].
    destruct (getBandwidthRates _ _ _ _ _) as [[bandwidth w5] th].
    by exists users, queues, bandwidth. }
  unfold getRouterResources. rewrite Hmiss.
  destruct (resource_print (d_device env)) as [[|r0 rest]|m]; simpl;
    split_and!; try done; by intros [?|[? ?]].
Qed.

Lemma getRouter_online_without_resources_witness :
  Js.get (body (getRouter "1" detail_faulty [router2; router1] cold_process).1)
    "status" = Js.Str "online"
  ∧ Js.get (body (getRouter "1" detail_faulty [router2; router1] cold_process).1)
      "cpu" = Js.Undefined.
Proof.
  pose proof (getRouter_online_without_resources "1" detail_faulty
    [router2; router1] cold_process router1 0%nat
    (getConnection 1000 reachable router1 cold_world).2) as H.
  destruct H as (_ & Hs & Hc); [by vm_compute|by vm_compute|by vm_compute|].
  split; [exact Hs|]. apply Hc. right. by eexists.
Defined.

(** A bandwidth query that had to ask the device, and got rows that all
    have a name, caches what it returns. *)
Lemma getBandwidthRates_fresh env conn cfg w th interfaces :
  Js.truthy (getFromCache (b_start env) (this w) (id cfg) "bandwidth") = false →
  running_print env = Rows interfaces →
  Forall (λ iface : Row, is_Some (iface !! "name")) interfaces →
  ∃ result th',
    getBandwidthRates env conn cfg w th
    = (Js.Obj result,
       with_this (emit w (Write conn "/interface/print" ["?running=true"]))
         (setCache (b_answered env) (this w) (id cfg) "bandwidth" (Js.Obj result)),
       th').
Proof.
  intros Hmiss Hrows Hnamed. unfold getBandwidthRates.
  rewrite Hmiss, Hrows. cbv zeta.
  destruct (bandwidth_loop _ _ _ _) as [[] st] eqn:Hloop.
  - exfalso.
    pose proof (bandwidth_loop_threw (b_answered env) (id cfg) interfaces
      {| bandwidthList := []; totalRxRate := Js.of_Z 0;
         totalTxRate := Js.of_Z 0; history := th |}) as [Hthrew _].
    rewrite Hloop in Hthrew.
    apply Exists_exists in Hthrew as (iface & Hin & Hnone); [|done].
    eapply Forall_forall in Hnamed as [name Hname]; [|exact Hin]. congruence.
  - by eexists _, _.
Qed.

(** X26.  The summary of all routers reads the same [bandwidth] cache as the
    per-router route: after [/api/routers/:id/bandwidth] has asked the
    device, the summary entry of that router in the next two seconds shows
    the formatted receive total of that answer, and producing it asks the
    adapter nothing and leaves the rate history as it is. *)
Theorem summary_reads_bandwidth_cache (params_id : string)
  (env env' : SingleEnv) (routerConfigs : list RouterConfig) (p : Process)
  (config : RouterConfig) (conn : Conn) (w1 : World) (interfaces : list Row) :
  cacheTimeouts (this (world p)) = cacheTimeouts new →
  findRouter routerConfigs params_id = Some config →
  getConnection (s_start env) (s_conn env) config (world p) = (Some conn, w1) →
  Js.truthy (getFromCache (b_start (s_bandwidth env)) (this w1) (id config)
               "bandwidth") = false →
  running_print (s_bandwidth env) = Rows interfaces →
  Forall (λ iface : Row, is_Some (iface !! "name")) interfaces →
  s_start env' - s_release env < 120000 →
  b_start (s_bandwidth env') - b_answered (s_bandwidth env) < 2000 →
  let first := getRouterBandwidth params_id env routerConfigs p in
  let second := summaryOf env' config first.2 in
  second.1 = Js.Obj [("id", num (id config));
                     ("bandwidth", Js.get (body first.1) "totalRxRateFormatted")]
  ∧ log (world second.2) = log (world first.2)
  ∧ trafficHistory second.2 = trafficHistory first.2.
Proof.
  intros Hp Hf Hconn Hmiss Hrows Hnamed Hpool Hfresh. cbv zeta.
  destruct (getConnection_entry _ _ _ _ _ _ Hconn) as (e & He & Hce).
  pose proof (getConnection_cache (s_start env) (s_conn env) config (world p))
    as [HT _]. rewrite Hconn in HT. simpl in HT.
  destruct (getBandwidthRates_fresh (s_bandwidth env) conn config w1
    (trafficHistory p) interfaces Hmiss Hrows Hnamed) as (result & th' & Hbw).
  assert (getRouterBandwidth params_id env routerConfigs p
    = (json (Js.Obj result),
       {| world := releaseConnection (s_release env) config
            (with_this (emit w1 (Write conn "/interface/print" ["?running=true"]))
               (setCache (b_answered (s_bandwidth env)) (this w1) (id config)
                  "bandwidth" (Js.Obj result)));
          trafficHistory := th' |})) as ->.
  { unfold getRouterBandwidth. by rewrite Hf, Hconn, Hbw. }
  set (W := with_this _ _).
  set (e1 := {| connection := connection e; lastUsed := s_release env;
                useCount := useCount e; config := ConnectionPool.config e |}).
  set (e2 := {| connection := connection e; lastUsed := s_start env';
                useCount := useCount e + 1; config := ConnectionPool.config e |}).
  set (m1 := <[poolKeyOf config := e1]> (pools (this w1))).
  assert (releaseConnection (s_release env) config W = with_pools W m1) as Hrel.
  { unfold releaseConnection.
    change (pools (this W)) with (pools (this w1)). by rewrite He. }
  assert (getConnection (s_start env') (s_conn env') config (with_pools W m1)
          = (Some (connection e), with_pools (with_pools W m1) (<[poolKeyOf config := e2]> m1)))
    as Hget.
  { unfold getConnection.
    change (pools (this (with_pools W m1))) with m1.
    unfold m1 at 1. rewrite lookup_insert_eq.
    change (lastUsed e1) with (s_release env).
    by rewrite (proj2 (Z.ltb_lt _ _)) by done. }
  assert (getFromCache (b_start (s_bandwidth env'))
            (this (with_pools (with_pools W m1) (<[poolKeyOf config := e2]> m1)))
            (id config) "bandwidth" = Js.Obj result) as Hhit.
  { transitivity (getFromCache (b_start (s_bandwidth env'))
      (setCache (b_answered (s_bandwidth env)) (this w1) (id config)
         "bandwidth" (Js.Obj result)) (id config) "bandwidth"); [done|].
    rewrite getFromCache_setCache_same, timeoutOf_new by congruence.
    change (ttl "bandwidth") with 2000.
    by rewrite (proj2 (Z.ltb_lt _ _)) by done. }
  unfold summaryOf. cbn [fst snd world trafficHistory body json].
  rewrite Hrel, Hget. unfold getBandwidthRates. rewrite Hhit.
  cbn [Js.truthy fst snd world trafficHistory].
  split; [done|]. split; [|done].
  unfold releaseConnection.
  case_match; reflexivity.
Qed.

Lemma summary_reads_bandwidth_cache_witness :
  (summaryOf single_again router1
     (getRouterBandwidth "1" single_up [router2; router1] cold_process).2).1
  = Js.Obj [("id", num 1); ("bandwidth", Js.Str "0 bps")].
Proof.
  pose proof (summary_reads_bandwidth_cache "1" single_up single_again
    [router2; router1] cold_process router1 0%nat
    (getConnection 1000 reachable router1 cold_world).2 [one_interface]) as H.
  destruct H as (H & _ & _);
    [by vm_compute|by vm_compute|by vm_compute|by vm_compute|by vm_compute
    |repeat constructor; by eexists|by vm_compute|by vm_compute|].
  vm_compute in H. vm_compute. exact H.
Defined.

End routes.

(** ** The legacy server *)

Section legacy.
Import ConnectionPool.

#[local] Arguments Nat.leb : simpl never.

Lemma legacy_loop_length now routerId interfaces count st :
  (count < 12)%nat →
  length (Server.bandwidthList st) = count →
  Forall significant (Server.bandwidthList st) →
  let st' := Legacy.bandwidth_loop now routerId interfaces count st in
  (length (Server.bandwidthList st') ≤ 12)%nat
  ∧ Forall significant (Server.bandwidthList st').
Proof.
  revert count st. induction interfaces as [|iface rest IH]; intros count st Hc Hl Hs.
  { simpl. split; [lia|done]. }
  simpl. destruct (iface !! "name") as [ifaceName|]; [|split; [lia|done]].
  destruct (negb _); [by apply IH|].
  destruct (bool_decide _); [by apply IH|].
  destruct (Legacy.calculateRates _ _ _ _ _ _) as [rates th].
  destruct (Number.gt (rxRate rates) (Js.of_Z 1000)
            || Number.gt (txRate rates) (Js.of_Z 1000)) eqn:Hsig.
  - assert (Forall significant
      (Server.bandwidthList st ++
       [{| Server.if_name := ifaceName; Server.if_type := iface !! "type";
           Server.if_rxRate := rxRate rates; Server.if_txRate := txRate rates;
           Server.if_rxBytes := Text.parseInt_or (iface !! "rx-byte") 0;
           Server.if_txBytes := Text.parseInt_or (iface !! "tx-byte") 0;
           Server.if_running := bool_decide (iface !! "running" = Some "true") |}]))
      as Hs'.
    { apply Forall_app_2; [exact Hs|]. constructor; [exact Hsig|constructor]. }
    destruct (Nat.leb_spec 12 (S count)).
    + split; [|exact Hs']. simpl. rewrite length_app. simpl. lia.
    + apply IH; [lia| |exact Hs']. simpl. rewrite length_app. simpl. lia.
  - by apply IH.
Qed.

(** X27.  The list of the legacy [getBandwidthRates] is never empty and never
    longer than twelve: it is either the placeholder entry for [ether1]
    with zero rates, or up to twelve interfaces that each carry more than
    1000 bit/s in one direction. *)
Theorem legacy_bandwidth_list (reply : WriteResult) (now routerId : Z)
  (th : gmap string Sample) :
  ∃ shown,
    Js.get (Legacy.getBandwidthRates reply now routerId th).1 "interfaces"
    = Js.Arr (Server.interface_value <$> shown)
    ∧ (1 ≤ length shown ≤ 12)%nat
    ∧ (shown = [Legacy.placeholder] ∨ Forall significant shown).
Proof.
  unfold Legacy.getBandwidthRates. cbv zeta.
  set (st0 := {| Server.bandwidthList := []; Server.totalRxRate := Js.of_Z 0;
                 Server.totalTxRate := Js.of_Z 0; Server.history := th |}).
  assert (∀ st, (length (Server.bandwidthList st) ≤ 12)%nat →
                Forall significant (Server.bandwidthList st) →
    ∃ shown,
      Js.get (Server.bandwidth_result (Server.totalRxRate st) (Server.totalTxRate st)
                (take 20 match Server.bandwidthList st with
                         | [] => [Legacy.placeholder]
                         | l => l
                         end)) "interfaces"
      = Js.Arr (Server.interface_value <$> shown)
      ∧ (1 ≤ length shown ≤ 12)%nat
      ∧ (shown = [Legacy.placeholder] ∨ Forall significant shown)) as Hshape.
  { intros st Hlen Hsig. destruct (Server.bandwidthList st) as [|x l] eqn:Hl.
    - exists [Legacy.placeholder]. simpl. split; [done|]. split; [lia|by left].
    - exists (x :: l). rewrite take_ge by (simpl in *; lia).
      split; [done|]. split; [simpl in *; lia|by right]. }
  destruct reply as [interfaces|m].
  - destruct (legacy_loop_length now routerId interfaces 0 st0) as [Hlen Hsig];
      [lia|done|by constructor|].
    apply (Hshape _ Hlen Hsig).
  - apply (Hshape st0); simpl; [lia|by constructor].
Qed.

Lemma legacy_loop_quiet now routerId interfaces count st :
  polled_recently now routerId (Server.history st) →
  let st' := Legacy.bandwidth_loop now routerId interfaces count st in
  Server.bandwidthList st' = Server.bandwidthList st
  ∧ Server.totalRxRate st' = Server.totalRxRate st
  ∧ Server.totalTxRate st' = Server.totalTxRate st
  ∧ Server.history st ⊆ Server.history st'.
Proof.
  revert st. induction interfaces as [|iface rest IH]; intros st Hyoung; [done|].
  simpl. destruct (iface !! "name") as [ifaceName|]; [|done].
  destruct (negb _); [by apply IH|].
  destruct (bool_decide _); [by apply IH|].
  destruct (Server.history st !! historyKey routerId ifaceName) as [h|] eqn:Hh.
  - rewrite (Legacy_calculateRates_stored _ _ _ _ _ _ _ Hh). cbv zeta.
    rewrite (proj2 (Z.leb_gt _ _)) by (by apply (Hyoung ifaceName)).
    change (Number.gt (rxRate _) _ || Number.gt (txRate _) _) with false.
    cbv iota. destruct st. by apply IH.
  - rewrite (Legacy_calculateRates_unseen _ _ _ _ _ _ Hh).
    change (Number.gt (rxRate _) _ || Number.gt (txRate _) _) with false.
    cbv iota.
    match goal with |- context [Legacy.bandwidth_loop _ _ rest _ ?s] =>
      destruct (IH s) as (Hl & Hrx & Htx & Hsub) end.
    { intros name s. simpl.
      destruct (decide (historyKey routerId name = historyKey routerId ifaceName))
        as [->|Hne].
      - rewrite lookup_insert_eq. intros [= <-]. simpl. lia.
      - rewrite lookup_insert_ne by done. apply Hyoung. }
    simpl in *. split_and!; try done.
    etrans; [|exact Hsub]. by apply insert_subseteq.
Qed.

(** X28.  Polled again less than two seconds after the samples it holds for
    the router were taken (or before it holds any), the legacy
    [getBandwidthRates] answers with the placeholder alone and zero totals,
    whatever the counters of the device are; the stored samples stay as
    they are. *)
Theorem legacy_bandwidth_polled_too_soon (reply : WriteResult)
  (now routerId : Z) (th : gmap string Sample) :
  polled_recently now routerId th →
  (Legacy.getBandwidthRates reply now routerId th).1
  = Server.bandwidth_result (Js.of_Z 0) (Js.of_Z 0) [Legacy.placeholder]
  ∧ th ⊆ (Legacy.getBandwidthRates reply now routerId th).2.
Proof.
  intros Hyoung. unfold Legacy.getBandwidthRates. cbv zeta.
  destruct reply as [interfaces|m]; [|done].
  destruct (legacy_loop_quiet now routerId interfaces 0
    {| Server.bandwidthList := []; Server.totalRxRate := Js.of_Z 0;
       Server.totalTxRate := Js.of_Z 0; Server.history := th |} Hyoung)
    as (Hl & Hrx & Htx & Hsub).
  simpl in *. by rewrite Hl, Hrx, Htx.
Qed.

Lemma legacy_bandwidth_polled_too_soon_witness :
  (Legacy.getBandwidthRates
     (Rows [{[ "name" := "ether1"; "rx-byte" := "900000" ]}]) 1500 1
     {[ historyKey 1 "ether1" := seed_of 0 0 0 ]}).1
  = Server.bandwidth_result (Js.of_Z 0) (Js.of_Z 0) [Legacy.placeholder].
Proof.
  apply (legacy_bandwidth_polled_too_soon _ 1500 1).
  intros name s.
  destruct (decide (historyKey 1 name = historyKey 1 "ether1")) as [->|Hne].
  - rewrite lookup_singleton_eq. intros [= <-]. simpl. lia.
  - by rewrite lookup_singleton_ne.
Defined.

(** What one branch of the legacy overview does to the log: it opens the
    next connection and, if the connect succeeded, closes it -- twice when
    the first close throws. *)
Lemma legacy_overviewOf_log env config st :
  let st' := (Legacy.overviewOf env config st).2 in
  Legacy.fresh st' = S (Legacy.fresh st)
  ∧ Legacy.log st'
    = Legacy.log st ++ Connect (Legacy.fresh st) (ip config)
        :: match Legacy.connect_error env, Legacy.close_error env with
           | Some _, _ => []
           | None, None => [Close (Legacy.fresh st)]
           | None, Some _ => [Close (Legacy.fresh st); Close (Legacy.fresh st)]
           end.
Proof.
  unfold Legacy.overviewOf, Legacy.connectToRouter.
  destruct (Legacy.connect_error env); [done|].
  destruct (Legacy.getBandwidthRates _ _ _ _) as [bandwidth th].
  destruct (Legacy.close_error env); simpl; by rewrite <-?app_assoc.
Qed.

Lemma legacy_routersFrom_log env k routerConfigs st :
  let st' := (Legacy.routersFrom env k routerConfigs st).2 in
  Legacy.fresh st' = (Legacy.fresh st + length routerConfigs)%nat
  ∧ (∀ c, Close c ∈ Legacy.log st' ↔
          Close c ∈ Legacy.log st
          ∨ ∃ i, (i < length routerConfigs)%nat
                 ∧ c = (Legacy.fresh st + i)%nat
                 ∧ Legacy.connect_error (env (k + i)%nat) = None)
  ∧ (∀ i config, routerConfigs !! i = Some config →
       Connect (Legacy.fresh st + i)%nat (ip config) ∈ Legacy.log st')
  ∧ (∀ e, e ∈ Legacy.log st → e ∈ Legacy.log st').
Proof.
  revert k st. induction routerConfigs as [|config rest IH]; intros k st.
  { simpl. split; [lia|]. split; [|done]. intros c. split; [by left|].
    intros [?|(i & ? & _)]; [done|lia]. }
  simpl.
  pose proof (legacy_overviewOf_log (env k) config st) as [Hf Hl].
  destruct (Legacy.overviewOf (env k) config st) as [r st1]. simpl in Hf, Hl.
  specialize (IH (S k) st1).
  destruct (Legacy.routersFrom env (S k) rest st1) as [rs st2].
  simpl in *. destruct IH as (IHf & IHc & IHo & IHm).
  assert (∀ c, Close c ∈ Legacy.log st1 ↔
               Close c ∈ Legacy.log st
               ∨ (c = Legacy.fresh st ∧ Legacy.connect_error (env k) = None))
    as Hc1.
  { intros c. rewrite Hl, elem_of_app, elem_of_cons.
    destruct (Legacy.connect_error (env k)), (Legacy.close_error (env k));
      rewrite ?elem_of_cons, ?elem_of_nil; intuition congruence. }
  split; [lia|]. split; [|split].
  - intros c. rewrite IHc, Hc1. split.
    + intros [[?|[-> Hok]]|(i & Hi & -> & Hok)].
      * by left.
      * right. exists 0%nat. rewrite !Nat.add_0_r. split; [lia|done].
      * right. exists (S i).
        replace (k + S i)%nat with (S k + i)%nat by lia.
        split; [lia|]. split; [lia|done].
    + intros [?|(i & Hi & -> & Hok)]; [by left; left|].
      destruct i as [|i].
      * left. right. rewrite !Nat.add_0_r in *. done.
      * right. exists i.
        replace (k + S i)%nat with (S k + i)%nat in Hok by lia.
        split; [lia|]. split; [lia|done].
  - intros [|i] cfg Hi; simpl in Hi.
    + injection Hi as ->. apply IHm. rewrite Hl, Nat.add_0_r.
      apply elem_of_app. right. left.
    + specialize (IHo i cfg Hi). rewrite Hf in IHo.
      by replace (Legacy.fresh st + S i)%nat with (S (Legacy.fresh st) + i)%nat by lia.
  - intros e He. apply IHm. rewrite Hl. apply elem_of_app. by left.
Qed.

(** X29.  The legacy overview opens one connection per configured router
    and leaves none open: the connection of the [i]-th router is closed by
    the end of the request exactly when its connect succeeded, whatever the
    queries and the close itself did. *)
Theorem legacy_overview_closes_every_connection (env : nat → Legacy.DeviceEnv)
  (routerConfigs : list RouterConfig) (st : Legacy.State)
  (i : nat) (config : RouterConfig) :
  (∀ c, Close c ∈ Legacy.log st → (c < Legacy.fresh st)%nat) →
  routerConfigs !! i = Some config →
  let st' := (Legacy.getRouters env routerConfigs st).2 in
  let conn := (Legacy.fresh st + i)%nat in
  length (Legacy.getRouters env routerConfigs st).1 = length routerConfigs
  ∧ Connect conn (ip config) ∈ Legacy.log st'
  ∧ (Close conn ∈ Legacy.log st' ↔ Legacy.connect_error (env i) = None).
Proof.
  intros Hwf Hi. cbv zeta. unfold Legacy.getRouters.
  destruct (legacy_routersFrom_log env 0 routerConfigs st) as (_ & Hc & Ho & _).
  split; [|split].
  - clear. generalize 0%nat. revert st.
    induction routerConfigs as [|cfg rest IH]; intros st k; simpl; [done|].
    destruct (Legacy.overviewOf _ _ _) as [r st1].
    specialize (IH st1 (S k)).
    destruct (Legacy.routersFrom _ _ _ _) as [rs st2]. simpl in *. lia.
  - by apply Ho.
  - rewrite Hc. split.
    + intros [Hold|(j & _ & Hj & Hok)].
      * apply Hwf in Hold. lia.
      * by replace i with j by lia.
    + intros Hok. right. exists i. split; [by eapply lookup_lt_Some|done].
Qed.

Lemma legacy_overview_closes_every_connection_witness :
  Close 1%nat ∈ Legacy.log
    (Legacy.getRouters legacy_fleet [router1; router2] legacy_start).2
  ∧ ¬ Close 0%nat ∈ Legacy.log
    (Legacy.getRouters legacy_fleet [router1; router2] legacy_start).2.
Proof.
  split.
  - apply (legacy_overview_closes_every_connection legacy_fleet
             [router1; router2] legacy_start 1 router2); [|done..].
    intros c Hin. by apply elem_of_nil in Hin.
  - intros Hin.
    apply (legacy_overview_closes_every_connection legacy_fleet
             [router1; router2] legacy_start 0 router1) in Hin; [done| |done].
    intros c Hc. by apply elem_of_nil in Hc.
Defined.

(** X30.  A device that accepts the session and answers the resource query
    with no row is shown as [online] with zero load and the version
    [unknown] by the legacy overview, and as [error] by the optimised
    overview. *)
Theorem empty_resource_reply_online_or_error (lenv : Legacy.DeviceEnv)
  (st : Legacy.State) (env : Server.DeviceEnv) (config : RouterConfig)
  (w : World) (conn : Conn) (w1 : World) :
  Legacy.connect_error lenv = None →
  Legacy.close_error lenv = None →
  Legacy.resource_print lenv = Rows [] →
  Js.truthy (getFromCache (Server.t_start env) (this w) (id config) "overview")
  = false →
  getConnection (Server.t_start env) (Server.conn_env env) config w
  = (Some conn, w1) →
  Js.truthy (getFromCache (Server.t_queries env) (this w) (id config) "resources")
  = false →
  Server.resource_print env = Rows [] →
  let legacy := (Legacy.overviewOf lenv config st).1 in
  Js.get legacy "status" = Js.Str "online"
  ∧ Js.get legacy "cpu" = num 0
  ∧ Js.get legacy "memoryUsage" = num 0
  ∧ Js.get legacy "version" = Js.Str "unknown"
  ∧ Js.get legacy "uptime" = Js.Str "0s"
  ∧ Js.get (Server.overviewOf env config w).1 "status" = Js.Str "error".
Proof.
  intros Hc Hcl Hres Hmiss Hconn Hmiss' Hres'. cbv zeta.
  assert (Js.get (Server.overviewOf env config w).1 "status" = Js.Str "error")
    as Herror.
  { apply (overviewOf_error_cached env config w conn w1 Hmiss Hconn Hmiss').
    by left. }
  unfold Legacy.overviewOf, Legacy.connectToRouter.
  rewrite Hc, Hcl, Hres.
  destruct (Legacy.getBandwidthRates _ _ _ _) as [bandwidth th].
  simpl. split_and!; [by vm_compute..|exact Herror].
Qed.

Lemma empty_resource_reply_online_or_error_witness :
  Js.get (Legacy.overviewOf legacy_up router1 legacy_start).1 "status"
  = Js.Str "online"
  ∧ Js.get (Server.overviewOf
              {| Server.t_start := 1000; Server.conn_env := reachable;
                 Server.t_queries := 1100;
                 Server.resource_print := Rows []; Server.t_resources := 1150;
                 Server.interface_print := Rows [];
                 Server.queue_count := Rows [];
                 Server.queue_active_count := Rows [];
                 Server.t_queues := 1180; Server.t_merge := 1200 |}
              router1 cold_world).1 "status" = Js.Str "error".
Proof.
  pose proof (empty_resource_reply_online_or_error legacy_up legacy_start
    {| Server.t_start := 1000; Server.conn_env := reachable;
       Server.t_queries := 1100;
       Server.resource_print := Rows []; Server.t_resources := 1150;
       Server.interface_print := Rows [];
       Server.queue_count := Rows [];
       Server.queue_active_count := Rows [];
       Server.t_queues := 1180; Server.t_merge := 1200 |}
    router1 cold_world 0%nat
    (getConnection 1000 reachable router1 cold_world).2) as H.
  destruct H as (H1 & _ & _ & _ & _ & H2); [by vm_compute..|].
  split; [exact H1|exact H2].
Defined.

End legacy.

